(** * nx run: invocation parsing, target validation and executor dispatch

    A shallow embedding of [packages/tao/src/commands/run.ts]:
    [parseRunOpts], [printRunHelp], [validateTargetAndConfiguration],
    [iteratorToProcessStatusCode] and [run], followed by the properties
    the specification states about them.

    JavaScript objects whose key order is observable ([Object.keys]) are
    association lists in property order; the option bag, which is only read
    and stripped by key under names no object inherits, is a finite map.  A
    read by name on the workspace graph finds an own property or a member
    inherited from [Object.prototype].  Thrown errors and logged lines are
    explicit: a computation
    returns the events it emitted together with a value or a thrown
    error. *)

From Stdlib Require Import ZArith Ascii String List Sorted Bool.
From stdpp Require Import base option list strings gmap pretty.

Import ListNotations.
Local Open Scope string_scope.
Local Open Scope Z_scope.

(** ** JavaScript values held by option bags *)

Set Warnings "-register-all".

(** Numbers are the integers: the bag needs them to be told from strings
    and tested against zero. *)
Inductive value : Type :=
| VUndefined
| VBool (b : bool)
| VNum (n : Z)
| VStr (s : string)
| VArr (elems : list value).

(** The option bag built by minimist: [{ [k: string]: any }]. *)
Abbreviation Options := (gmap string value).

(** ToBoolean. *)
Definition truthy (v : value) : bool :=
  match v with
  | VUndefined => false
  | VBool b => b
  | VNum n => negb (n =? 0)
  | VStr s => negb (String.eqb s "")
  | VArr _ => true
  end.

(** [String.prototype.concat] over a list, and [Array.prototype.join]. *)
Fixpoint join (sep : string) (parts : list string) : string :=
  match parts with
  | [] => ""
  | [p] => p
  | p :: rest => p +:+ sep +:+ join sep rest
  end.

(** ToString, as used by template literals and property access.  Array
    elements that are undefined print as the empty string. *)
Fixpoint toString (v : value) : string :=
  match v with
  | VUndefined => "undefined"
  | VBool true => "true"
  | VBool false => "false"
  | VNum n => pretty n
  | VStr s => s
  | VArr elems =>
      join "," (map (fun e => match e with
                              | VUndefined => ""
                              | _ => toString e
                              end) elems)
  end.

(** [o[k]] on an option bag: a missing key reads as undefined. *)
Definition get (o : Options) (k : string) : value :=
  default VUndefined (o !! k).

(** [v[0]] for a value that is not undefined. *)
Definition index0 (v : value) : value :=
  match v with
  | VArr elems => nth 0 elems VUndefined
  | VStr (String c _) => VStr (String c "")
  | _ => VUndefined
  end.

(** [s.split(sep)] for a one-character separator. *)
Fixpoint split (sep : ascii) (s : string) : list string :=
  match s with
  | "" => [""]
  | String c s' =>
      if Ascii.eqb c sep then "" :: split sep s'
      else match split sep s' with
           | [] => [String c ""]
           | part :: parts => String c part :: parts
           end
  end%string.

Definition colon : ascii := ":"%char.

(** Array destructuring [[a, b, c] = parts]: missing positions are
    undefined. *)
Definition pick (parts : list value) (i : nat) : value :=
  nth i parts VUndefined.

(** ** Errors and effects *)

(** One constructor per [throw] site of the file, carrying the values the
    message interpolates; [TypeError] is the engine's own error for a
    property read on undefined or a call of a missing method, and [Opaque]
    stands for whatever a collaborator or an executor raises. *)
Inductive Error : Type :=
| InvalidInvocation
| ProjectNotFound (project : value)
| TargetNotFound (target project : value) (availableTargets : list string)
| ConfigurationNotFound (configuration project target : value)
    (validConfigurations : list string)
| NoConfigurationsDefined (project target configuration : value)
| TypeError (msg : string)
| Opaque (msg : string).

Inductive Result (A : Type) : Type :=
| Ok (a : A)
| Throw (e : Error).
Arguments Ok {A} a.
Arguments Throw {A} e.

(** The two names the specification gives to the errors of configuration
    validation. *)
Definition isConfigurationNotFoundError (e : Error) : bool :=
  match e with
  | ConfigurationNotFound _ _ _ _ | NoConfigurationsDefined _ _ _ => true
  | _ => false
  end.

(** The double-quote character of the messages. *)
Definition dq : string := String (ascii_of_nat 34) EmptyString.

(** The message of each error, as the template literals build it. *)
Definition message (bold : string -> string) (e : Error) : string :=
  match e with
  | InvalidInvocation =>
      "Specify the project name and the target (e.g., nx run proj:build)"
  | ProjectNotFound p =>
      "Could not find project " +:+ dq +:+ toString p +:+ dq
  | TargetNotFound t p available =>
      "Could not find target " +:+ dq +:+ toString t +:+ dq +:+ " in the "
        +:+ toString p +:+ " project. Valid targets are: "
        +:+ bold (join ", " available)
  | ConfigurationNotFound c p t valid =>
      "Could not find configuration " +:+ dq +:+ toString c +:+ dq
        +:+ " in " +:+ toString p +:+ ":" +:+ toString t
        +:+ ". Valid configurations are: " +:+ join ", " valid
  | NoConfigurationsDefined p t c =>
      "No configurations are defined for " +:+ toString p +:+ ":"
        +:+ toString t +:+ ", so " +:+ dq +:+ toString c +:+ dq
        +:+ " is invalid."
  | TypeError msg => msg
  | Opaque msg => msg
  end.

(** ** Objects in property order *)

(** An object whose keys are enumerated: the list is the order in which
    [Object.keys] reports the properties. *)
Definition JsObject (V : Type) : Type := list (string * V).

(** The own property of an object under a key, if it has one: the first
    binding of the key. *)
Fixpoint prop {V : Type} (o : JsObject V) (k : string) : option V :=
  match o with
  | [] => None
  | (k', v) :: rest => if String.eqb k' k then Some v else prop rest k
  end.

(** [Object.keys(o)]. *)
Definition keys {V : Type} (o : JsObject V) : list string := map fst o.

(** The names every plain object inherits from [Object.prototype]: eleven
    functions and the accessor [__proto__].  Each reads as a truthy value
    that has no [targets], [configurations] or [executor] of its own. *)
Definition objectPrototypeNames : list string :=
  ["constructor"; "__defineGetter__"; "__defineSetter__"; "hasOwnProperty";
   "__lookupGetter__"; "__lookupSetter__"; "isPrototypeOf";
   "propertyIsEnumerable"; "toString"; "valueOf"; "__proto__";
   "toLocaleString"].

Definition inherits (k : string) : bool :=
  existsb (String.eqb k) objectPrototypeNames.

(** What the read [o[k]] finds on a plain object: the value of its own
    property, else the member inherited under that name, else undefined. *)
Inductive Member (V : Type) : Type :=
| Own (v : V)
| Inherited
| Undefined.
Arguments Own {V} v.
Arguments Inherited {V}.
Arguments Undefined {V}.

Definition member {V : Type} (o : JsObject V) (k : string) : Member V :=
  match prop o k with
  | Some v => Own v
  | None => if inherits k then Inherited else Undefined
  end.

(** ** The workspace graph ([../shared/workspace]) *)

(** What a configurations map binds a name to, [any] in the declaration:
    an object of option overrides, or a value that is no object (a null
    reads here as undefined; both are falsy). *)
Inductive ConfigurationEntry : Type :=
| Overrides (o : Options)
| NotAnObject (v : value).

Definition entryTruthy (e : ConfigurationEntry) : bool :=
  match e with
  | Overrides _ => true
  | NotAnObject v => truthy v
  end.

(** The values of the projects and targets maps are objects, as their
    types declare. *)
Record TargetConfiguration : Type := {
  executor : string;
  options : option Options;
  configurations : option (JsObject ConfigurationEntry)
}.

Record ProjectConfiguration : Type := {
  targets : JsObject TargetConfiguration
}.

Record WorkspaceConfiguration : Type := {
  projects : JsObject ProjectConfiguration
}.

(** ** The run request *)

(** [interface RunOptions].  The fields hold what the parse left in them:
    the annotation says string, the value may be undefined. *)
Record RunOptions : Type := {
  project : value;
  target : value;
  configuration : value;
  help : value;
  runOptions : Options
}.

Record TargetContext : Type := {
  ctx_root : string;
  ctx_target : TargetConfiguration;
  ctx_workspace : WorkspaceConfiguration;
  ctx_projectName : value
}.

(** ** What an executor produces *)

Record Outcome : Type := { success : bool }.

(** An async iterator of outcomes, by what each [next()] settles to: done,
    a rejection, or one more outcome and the rest. *)
Inductive AsyncIterator : Type :=
| Done
| Rejects (e : Error)
| Yields (o : Outcome) (rest : AsyncIterator).

(** The finite sequence of outcomes [l], produced to exhaustion. *)
Fixpoint yielding (l : list Outcome) : AsyncIterator :=
  match l with
  | [] => Done
  | o :: rest => Yields o (yielding rest)
  end.

(** [Promise<{success}> | AsyncIterableIterator<{success}>]: a promise is
    given by what it settles to. *)
Inductive ExecutorResult : Type :=
| APromise (settled : Result Outcome)
| AnIterator (i : AsyncIterator).

(** The options handed to minimist by [parseRunOpts]. *)
Record MinimistOpts : Type := {
  boolean : list string;
  string_ : list string;
  alias : list (string * string)
}.

Definition runMinimistOpts : MinimistOpts :=
  {| boolean := ["help"; "prod"];
     string_ := ["configuration"; "project"];
     alias := [("c", "configuration")] |}.

(** The keys [parseRunOpts] deletes from the bag before returning. *)
Definition recognizedKeys : list string :=
  ["help"; "_"; "c"; "configuration"; "prod"; "project"].

Section Model.

(** The option schema of an executor ([Schema] of [../shared/params]). *)
Context {Schema : Type}.

(** What the run does to the world, in order. *)
Inductive Event : Type :=
| LogDebug (msg : string)
| PrintHelp (label : string) (schema : Schema)
| InvokeImplementation (options : Options) (context : TargetContext)
| ScheduleTarget (root : string) (request : RunOptions) (verbose : bool)
| Consume (o : Outcome).

(** A computation: the events emitted, then a value or a thrown error. *)
Definition M (A : Type) : Type := (list Event * Result A)%type.

Definition ret {A : Type} (a : A) : M A := ([], Ok a).
Definition throw {A : Type} (e : Error) : M A := ([], Throw e).
Definition emit (ev : Event) : M unit := ([ev], Ok tt).
Definition lift {A : Type} (r : Result A) : M A := ([], r).

Definition bind {A B : Type} (m : M A) (k : A -> M B) : M B :=
  match m with
  | (log, Ok a) => let (log', r) := k a in ((log ++ log')%list, r)
  | (log, Throw e) => (log, Throw e)
  end.

Definition events {A : Type} (m : M A) : list Event := fst m.
Definition outcome {A : Type} (m : M A) : Result A := snd m.

Record ExecutorDescriptor : Type := {
  schema : Schema;
  implementation : Options -> TargetContext -> Result ExecutorResult
}.

(** The collaborators [run.ts] imports.  The methods of [Workspaces] take
    the root the object was built with as their first argument;
    [scheduleTarget] is the adapter's function followed by
    [eachValueFrom]. *)
Record Collaborators : Type := {
  minimist : list string -> MinimistOpts -> Options;
  convertToCamelCase : Options -> Options;
  chalk_bold : string -> string;
  readWorkspaceConfiguration : string -> Result WorkspaceConfiguration;
  calculateDefaultProjectName :
    string -> string -> WorkspaceConfiguration -> option string;
  readExecutor : string -> value -> value -> Result ExecutorDescriptor;
  isNxExecutor : string -> value -> value -> bool;
  relativeCwd : string -> string -> string;
  combineOptionsForExecutor :
    Options -> value -> TargetConfiguration -> Schema -> option string ->
    string -> Result Options;
  scheduleTarget : string -> RunOptions -> bool -> Result AsyncIterator;
  handleErrors : bool -> M Z -> M Z
}.

End Model.

Arguments Event Schema : clear implicits.
Arguments M Schema A : clear implicits.
Arguments ExecutorDescriptor Schema : clear implicits.
Arguments Collaborators Schema : clear implicits.

Declare Scope run_scope.
Notation "x <- m ;; k" := (bind m (fun x => k))
  (at level 100, m at next level, right associativity) : run_scope.
Notation "m ;;; k" := (bind m (fun _ => k))
  (at level 100, right associativity) : run_scope.
Local Open Scope run_scope.

(** ** The functions of [run.ts] *)

Section Run.

Context {Schema : Type}.
Variable E : Collaborators Schema.

Definition throwInvalidInvocation {A : Type} : M Schema A :=
  throw InvalidInvocation.

(** [v.split(':')]: only a string has the method. *)
Definition splitColon (v : value) : Result (list value) :=
  match v with
  | VStr s => Ok (map VStr (split colon s))
  | VUndefined =>
      Throw (TypeError "Cannot read properties of undefined (reading 'split')")
  | _ => Throw (TypeError "runOptions._[0].split is not a function")
  end.

(** Truthiness of [defaultProjectName : string | null]. *)
Definition truthyName (name : option string) : bool :=
  match name with
  | Some d => negb (String.eqb d "")
  | None => false
  end.

(** The six [delete] statements of [parseRunOpts], in their order. *)
Definition stripRecognized (runOptions : Options) : Options :=
  delete "project"
    (delete "prod"
       (delete "configuration"
          (delete "c" (delete "_" (delete "help" runOptions))))).

(** [parseRunOpts] from the point where [runOptions] is bound (lines 48
    to 86).  The record and the stripped bag are the same object, so the
    request carries the bag as it is after the deletions. *)
Definition parseRunOptsFrom (runOptions : Options)
    (defaultProjectName : option string) : M Schema RunOptions :=
  let help := get runOptions "help" in
  (if negb (truthy (get runOptions "_"))
      || negb (truthy (index0 (get runOptions "_")))
   then throwInvalidInvocation else ret tt) ;;;
  parts <- lift (splitColon (index0 (get runOptions "_"))) ;;
  let project := pick parts 0 in
  let target := pick parts 1 in
  let configuration := pick parts 2 in
  project <-
    (if negb (truthy project) && truthyName defaultProjectName
     then
       emit (LogDebug ("No project name specified. Using default project : "
                       +:+ chalk_bold E (default "" defaultProjectName))) ;;;
       ret (VStr (default "" defaultProjectName))
     else ret project) ;;
  let configuration :=
    if truthy (get runOptions "configuration")
    then get runOptions "configuration" else configuration in
  let configuration :=
    if truthy (get runOptions "prod")
    then VStr "production" else configuration in
  let project :=
    if truthy (get runOptions "project")
    then get runOptions "project" else project in
  (if negb (truthy project) || negb (truthy target)
   then throwInvalidInvocation else ret tt) ;;;
  ret {| project := project;
         target := target;
         configuration := configuration;
         help := help;
         runOptions := stripRecognized runOptions |}.

(** The bag [parseRunOpts] works on. *)
Definition parsedOptions (args : list string) : Options :=
  convertToCamelCase E (minimist E args runMinimistOpts).

Definition parseRunOpts (cwd : string) (args : list string)
    (defaultProjectName : option string) : M Schema RunOptions :=
  parseRunOptsFrom (parsedOptions args) defaultProjectName.

Definition printRunHelp (opts : RunOptions) (schema : Schema)
    : M Schema unit :=
  emit (PrintHelp ("nx run " +:+ toString (project opts) +:+ ":"
                   +:+ toString (target opts)) schema).

Definition validateTargetAndConfiguration
    (workspace : WorkspaceConfiguration) (opts : RunOptions) : Result unit :=
  match member (projects workspace) (toString (project opts)) with
  | Undefined => Throw (ProjectNotFound (project opts))
  | Inherited =>
      (* [project] is truthy and [project.targets] is undefined *)
      Throw (TypeError ("Cannot read properties of undefined (reading '"
                        +:+ toString (target opts) +:+ "')"))
  | Own proj =>
      let availableTargets := keys (targets proj) in
      match member (targets proj) (toString (target opts)) with
      | Undefined =>
          Throw (TargetNotFound (target opts) (project opts) availableTargets)
      | Inherited =>
          (* [target] is truthy and [target.configurations] is undefined *)
          if truthy (configuration opts) then
            Throw (NoConfigurationsDefined (project opts) (target opts)
                     (configuration opts))
          else Ok tt
      | Own tgt =>
          if truthy (configuration opts) then
            match configurations tgt with
            | Some cfgs =>
                match member cfgs (toString (configuration opts)) with
                | Own entry =>
                    if entryTruthy entry then Ok tt
                    else Throw (ConfigurationNotFound (configuration opts)
                                  (project opts) (target opts) (keys cfgs))
                | Inherited => Ok tt
                | Undefined =>
                    Throw (ConfigurationNotFound (configuration opts)
                             (project opts) (target opts) (keys cfgs))
                end
            | None =>
                Throw (NoConfigurationsDefined (project opts) (target opts)
                         (configuration opts))
            end
          else Ok tt
      end
  end.

(** The [for await (r of i) {}] loop: [r] is the last value bound, and
    each value taken from the iterator is recorded as it arrives. *)
Fixpoint forAwait (i : AsyncIterator) (r : option Outcome)
    : M Schema (option Outcome) :=
  match i with
  | Done => ret r
  | Rejects e => throw e
  | Yields o rest => emit (Consume o) ;;; forAwait rest (Some o)
  end.

Definition statusOf (o : Outcome) : Z := if success o then 0 else 1.

Definition iteratorToProcessStatusCode (i : AsyncIterator) : M Schema Z :=
  r <- forAwait i None ;;
  match r with
  | Some o => ret (statusOf o)
  | None =>
      throw (TypeError "Cannot read properties of undefined (reading 'success')")
  end.

(** Lines 185 to 210 of [run]: the choice of protocol and the exit code. *)
Definition dispatch (root : string) (isVerbose : bool)
    (workspace : WorkspaceConfiguration) (opts : RunOptions)
    (tgt : TargetConfiguration) (nodeModule executorName : value)
    (impl : Options -> TargetContext -> Result ExecutorResult)
    (combinedOptions : Options) : M Schema Z :=
  if isNxExecutor E root nodeModule executorName then
    let context := {| ctx_root := root;
                      ctx_target := tgt;
                      ctx_workspace := workspace;
                      ctx_projectName := project opts |} in
    emit (InvokeImplementation combinedOptions context) ;;;
    r <- lift (impl combinedOptions context) ;;
    match r with
    | APromise settled => o <- lift settled ;; ret (statusOf o)
    | AnIterator i => iteratorToProcessStatusCode i
    end
  else
    let request := {| project := project opts;
                      target := target opts;
                      configuration := configuration opts;
                      help := help opts;
                      runOptions := combinedOptions |} in
    emit (ScheduleTarget root request isVerbose) ;;;
    i <- lift (scheduleTarget E root request isVerbose) ;;
    iteratorToProcessStatusCode i.

(** [workspace.projects[p].targets[t]] at line 169, up to the read of
    [target.executor.split] at line 170, which is where a target that is
    undefined or an inherited member makes the run throw. *)
Definition targetOf (workspace : WorkspaceConfiguration) (opts : RunOptions)
    : Result TargetConfiguration :=
  match member (projects workspace) (toString (project opts)) with
  | Undefined =>
      Throw (TypeError "Cannot read properties of undefined (reading 'targets')")
  | Inherited =>
      Throw (TypeError ("Cannot read properties of undefined (reading '"
                        +:+ toString (target opts) +:+ "')"))
  | Own proj =>
      match member (targets proj) (toString (target opts)) with
      | Undefined =>
          Throw (TypeError
                   "Cannot read properties of undefined (reading 'executor')")
      | Inherited =>
          Throw (TypeError
                   "Cannot read properties of undefined (reading 'split')")
      | Own tgt => Ok tgt
      end
  end.

(** The callback [run] hands to [handleErrors]. *)
Definition runBody (cwd root : string) (args : list string)
    (isVerbose : bool) : M Schema Z :=
  workspace <- lift (readWorkspaceConfiguration E root) ;;
  let defaultProjectName := calculateDefaultProjectName E root cwd workspace in
  opts <- parseRunOpts cwd args defaultProjectName ;;
  lift (validateTargetAndConfiguration workspace opts) ;;;
  tgt <- lift (targetOf workspace opts) ;;
  let parts := map VStr (split colon (executor tgt)) in
  let nodeModule := pick parts 0 in
  let executorName := pick parts 1 in
  desc <- lift (readExecutor E root nodeModule executorName) ;;
  combinedOptions <-
    lift (combineOptionsForExecutor E (runOptions opts) (configuration opts)
            tgt (schema desc) defaultProjectName (relativeCwd E root cwd)) ;;
  if truthy (help opts) then
    printRunHelp opts (schema desc) ;;;
    ret 0
  else
    dispatch root isVerbose workspace opts tgt nodeModule executorName
      (implementation desc) combinedOptions.

Definition run (cwd root : string) (args : list string) (isVerbose : bool)
    : M Schema Z :=
  handleErrors E isVerbose (runBody cwd root args isVerbose).

End Run.

(** ** Vocabulary of the specification *)

(** The first positional token [runOptions._[0]]. *)
Definition firstPositional (runOptions : Options) : value :=
  index0 (get runOptions "_").

(** The bag holds [tok] as its first positional token, or none. *)
Definition firstToken (runOptions : Options) (tok : option string) : Prop :=
  firstPositional runOptions = from_option VStr VUndefined tok.

(** The [i]-th colon-separated part of the positional token. *)
Definition segment (tok : string) (i : nat) : value :=
  pick (map VStr (split colon tok)) i.

(** The project the specification resolves: the [project] flag, else the
    positional segment, else the default project name. *)
Definition resolvedProject (runOptions : Options) (tok : string)
    (defaultProjectName : option string) : value :=
  if truthy (get runOptions "project") then get runOptions "project"
  else if truthy (segment tok 0) then segment tok 0
  else if truthyName defaultProjectName
       then VStr (default "" defaultProjectName)
       else segment tok 0.

(** The configuration the specification resolves: [production] under
    [prod], else the [configuration] flag, else the positional segment. *)
Definition resolvedConfiguration (runOptions : Options) (tok : string)
    : value :=
  if truthy (get runOptions "prod") then VStr "production"
  else if truthy (get runOptions "configuration")
       then get runOptions "configuration"
       else segment tok 2.

(** The request the specification describes for a bag whose first
    positional token is [tok]. *)
Definition requestOf (runOptions : Options) (tok : string)
    (d : option string) : RunOptions :=
  {| project := resolvedProject runOptions tok d;
     target := segment tok 1;
     configuration := resolvedConfiguration runOptions tok;
     help := get runOptions "help";
     runOptions := stripRecognized runOptions |}.

(** A part of the token holds no separator. *)
Fixpoint freeOf (sep : ascii) (s : string) : bool :=
  match s with
  | EmptyString => true
  | String c s' => negb (Ascii.eqb c sep) && freeOf sep s'
  end.

(** Events that run an executor. *)
Definition isInvocation {Schema : Type} (ev : Event Schema) : bool :=
  match ev with
  | InvokeImplementation _ _ | ScheduleTarget _ _ _ => true
  | _ => false
  end.

(** Every stage of [run] before the help test returned: the workspace was
    read, the arguments parsed into [opts] (logging [log]), the request
    validated, the target [tgt] looked up, its executor resolved to
    [desc] and the options combined into [combined]. *)
Definition stagesSucceed {Schema : Type} (E : Collaborators Schema)
    (cwd root : string) (args : list string)
    (workspace : WorkspaceConfiguration) (log : list (Event Schema))
    (opts : RunOptions) (tgt : TargetConfiguration)
    (desc : ExecutorDescriptor Schema) (combined : Options) : Prop :=
  let defaultProjectName := calculateDefaultProjectName E root cwd workspace in
  let parts := map VStr (split colon (executor tgt)) in
  readWorkspaceConfiguration E root = Ok workspace
  /\ parseRunOpts E cwd args defaultProjectName = (log, Ok opts)
  /\ validateTargetAndConfiguration workspace opts = Ok tt
  /\ targetOf workspace opts = Ok tgt
  /\ readExecutor E root (pick parts 0) (pick parts 1) = Ok desc
  /\ combineOptionsForExecutor E (runOptions opts) (configuration opts) tgt
       (schema desc) defaultProjectName (relativeCwd E root cwd)
     = Ok combined.

(** The context [run] hands to a native executor, and the request it
    hands to the adapter. *)
Definition contextOf (root : string) (workspace : WorkspaceConfiguration)
    (opts : RunOptions) (tgt : TargetConfiguration) : TargetContext :=
  {| ctx_root := root;
     ctx_target := tgt;
     ctx_workspace := workspace;
     ctx_projectName := project opts |}.

Definition adapterRequest (opts : RunOptions) (combined : Options)
    : RunOptions :=
  {| project := project opts;
     target := target opts;
     configuration := configuration opts;
     help := help opts;
     runOptions := combined |}.

(** Code-unit order on strings, the order of [Array.prototype.sort]. *)
Definition strLe (a b : string) : Prop := String.leb a b = true.

(** ** Sample data *)

Definition sampleBuild : TargetConfiguration :=
  {| executor := "@nrwl/web:build";
     options := Some ∅;
     configurations :=
       Some [("production", Overrides {[ "optimization" := VBool true ]});
             ("staging", Overrides ∅)] |}.

Definition sampleTest : TargetConfiguration :=
  {| executor := "@nrwl/jest:jest";
     options := None;
     configurations := None |}.

(** A workspace whose project [proj] declares [test] before [build]. *)
Definition sampleWorkspace : WorkspaceConfiguration :=
  {| projects :=
       [("proj", {| targets := [("test", sampleTest);
                                ("build", sampleBuild)] |})] |}.

Definition sampleRequest (t c : value) : RunOptions :=
  {| project := VStr "proj";
     target := t;
     configuration := c;
     help := VBool false;
     runOptions := ∅ |}.

(** The bags minimist builds for a few argument lists. *)
Definition sampleMinimist (args : list string) (_ : MinimistOpts) : Options :=
  let base (positional : list string) : Options :=
    {[ "_" := VArr (map VStr positional);
       "help" := VBool false;
       "prod" := VBool false ]} in
  if decide (args = ["proj:build"]) then base ["proj:build"]
  else if decide (args = ["proj:build:prod"]) then base ["proj:build:prod"]
  else if decide (args = ["proj:build"; "--prod"; "--configuration=staging"])
  then <["prod" := VBool true]>
         (<["configuration" := VStr "staging"]>
            (<["c" := VStr "staging"]> (base ["proj:build"])))
  else if decide (args = ["proj:build"; "--project=other"])
  then <["project" := VStr "other"]> (base ["proj:build"])
  else if decide (args = ["proj:build"; "--help"])
  then <["help" := VBool true]> (base ["proj:build"])
  else if decide (args = ["proj:build:prod"; "--configuration="; "--port=4200"])
  then <["port" := VNum 4200]>
         (<["configuration" := VStr ""]>
            (<["c" := VStr ""]> (base ["proj:build:prod"])))
  else if decide (args = [":build"; "--project="])
  then <["project" := VStr ""]> (base [":build"])
  else if decide (args = ["123"])
  then <["_" := VArr [VNum 123]]> (base [])
  else if decide (args = ["proj:constructor"])
  then base ["proj:constructor"]
  else base [].

Definition sampleHandleErrors (isVerbose : bool) (fn : M string Z)
    : M string Z :=
  match fn with
  | (log, Ok code) => (log, Ok code)
  | (log, Throw e) => ((log ++ [LogDebug (message id e)])%list, Ok 1)
  end.

(** Collaborators over [sampleWorkspace]: the executor is native or not,
    and answers [r]; the adapter answers [adapted]. *)
Definition sampleEnv (native : bool) (r : Result ExecutorResult)
    (adapted : Result AsyncIterator) : Collaborators string :=
  {| minimist := sampleMinimist;
     convertToCamelCase := id;
     chalk_bold := id;
     readWorkspaceConfiguration := fun _ => Ok sampleWorkspace;
     calculateDefaultProjectName := fun _ _ _ => Some "proj";
     readExecutor := fun _ nodeModule executorName =>
       Ok {| schema := "options of " +:+ toString executorName;
             implementation := fun _ _ => r |};
     isNxExecutor := fun _ _ _ => native;
     relativeCwd := fun _ cwd => cwd;
     combineOptionsForExecutor := fun raw _ _ _ _ _ => Ok raw;
     scheduleTarget := fun _ _ _ => adapted;
     handleErrors := sampleHandleErrors |}.

Definition succeeded : Outcome := {| success := true |}.
Definition failed : Outcome := {| success := false |}.

(** The sequence of the specification's example: two successes, then a
    failure. *)
Definition sampleSequence : list Outcome := [succeeded; succeeded; failed].

Definition nativeStreaming : Collaborators string :=
  sampleEnv true (Ok (AnIterator (yielding sampleSequence))) (Ok Done).

Definition nativePromise : Collaborators string :=
  sampleEnv true (Ok (APromise (Ok succeeded))) (Ok Done).

Definition nativeEmpty : Collaborators string :=
  sampleEnv true (Ok (AnIterator Done)) (Ok Done).

Definition adapted : Collaborators string :=
  sampleEnv false (Throw (Opaque "not a native executor"))
    (Ok (yielding sampleSequence)).

(** The descriptor [sampleEnv] resolves for the executor of [build]. *)
Definition buildDescriptor (r : Result ExecutorResult)
    : ExecutorDescriptor string :=
  {| schema := "options of build";
     implementation := fun _ _ => r |}.

(** The request parsed from the single token [proj:build]. *)
Definition buildRequest (helpFlag : bool) : RunOptions :=
  {| project := VStr "proj";
     target := VStr "build";
     configuration := VUndefined;
     help := VBool helpFlag;
     runOptions := ∅ |}.

(** The outcomes an iterator yields before it ends, and the rejection it
    ends with, if it does not end by being done. *)
Fixpoint yielded (i : AsyncIterator) : list Outcome :=
  match i with
  | Done | Rejects _ => []
  | Yields o rest => o :: yielded rest
  end.

Fixpoint rejection (i : AsyncIterator) : option Error :=
  match i with
  | Done => None
  | Rejects e => Some e
  | Yields _ rest => rejection rest
  end.

(** A workspace whose target [deploy] binds the configuration [dry] to
    [false]. *)
Definition sampleDeploy : TargetConfiguration :=
  {| executor := "@nrwl/workspace:run-commands";
     options := None;
     configurations := Some [("dry", NotAnObject (VBool false));
                             ("live", Overrides ∅)] |}.

Definition looseWorkspace : WorkspaceConfiguration :=
  {| projects := [("proj", {| targets := [("deploy", sampleDeploy)] |})] |}.

(** An iterator that yields a failure and a success, then rejects. *)
Definition sampleBroken : AsyncIterator :=
  Yields failed (Yields succeeded (Rejects (Opaque "build crashed"))).

Definition nativeBroken : Collaborators string :=
  sampleEnv true (Ok (AnIterator sampleBroken)) (Ok Done).

(** ** Properties *)

Section SplitFacts.

Variable sep : ascii.

Lemma split_nonempty (s : string) : split sep s <> [].
Proof.
  destruct s as [|c s]; simpl; [discriminate|].
  destruct (Ascii.eqb c sep); [discriminate|].
  destruct (split sep s); discriminate.
Qed.

Lemma join_cons (p : string) (rest : list string) :
  rest <> [] ->
  join (String sep EmptyString) (p :: rest)
  = p +:+ String sep (join (String sep EmptyString) rest).
Proof. destruct rest; [congruence|reflexivity]. Qed.

(** Joining the parts with the separator gives the string back. *)
Lemma join_split (s : string) :
  join (String sep EmptyString) (split sep s) = s.
Proof.
  induction s as [|c s IH]; [reflexivity|].
  simpl split. destruct (Ascii.eqb_spec c sep) as [->|Hne].
  - rewrite join_cons by apply split_nonempty. simpl. by rewrite IH.
  - pose proof (split_nonempty s) as Hs.
    destruct (split sep s) as [|part parts]; [congruence|].
    destruct parts as [|part' parts].
    + simpl in *. by rewrite IH.
    + rewrite join_cons by discriminate.
      rewrite join_cons in IH by discriminate.
      rewrite <- IH. reflexivity.
Qed.

(** No part holds the separator. *)
Lemma split_freeOf (s : string) :
  Forall (fun part => freeOf sep part = true) (split sep s).
Proof.
  induction s as [|c s IH]; simpl.
  - by repeat constructor.
  - destruct (Ascii.eqb c sep) eqn:Hc.
    + by constructor.
    + destruct (split sep s) as [|part parts].
      * constructor; [simpl; by rewrite Hc|constructor].
      * inversion IH as [|? ? Hpart Hparts]; subst.
        constructor; [simpl; by rewrite Hc, Hpart|done].
Qed.

End SplitFacts.

Section ParseFacts.

Context {Schema : Type}.
Variable E : Collaborators Schema.

(** The guard of line 49 tests the first positional token. *)
Lemma guard_firstPositional (runOptions : Options) :
  negb (truthy (get runOptions "_"))
    || negb (truthy (index0 (get runOptions "_")))
  = negb (truthy (firstPositional runOptions)).
Proof.
  unfold firstPositional.
  destruct (get runOptions "_") as [|b|n|s|elems]; simpl; try reflexivity.
  - by destruct b.
  - by destruct (n =? 0).
  - by destruct s.
Qed.

Lemma parse_no_token (runOptions : Options) (d : option string) :
  truthy (firstPositional runOptions) = false ->
  parseRunOptsFrom E runOptions d = ([], Throw InvalidInvocation).
Proof.
  intros Hfalsy. unfold parseRunOptsFrom.
  by rewrite guard_firstPositional, Hfalsy.
Qed.

(** A first positional that is truthy and not a string has no [split]. *)
Lemma parse_not_a_string (runOptions : Options) (d : option string) :
  truthy (firstPositional runOptions) = true ->
  (forall s, firstPositional runOptions <> VStr s) ->
  parseRunOptsFrom E runOptions d
  = ([], Throw (TypeError "runOptions._[0].split is not a function")).
Proof.
  intros Htruthy Hnot. unfold parseRunOptsFrom.
  rewrite guard_firstPositional, Htruthy.
  fold (firstPositional runOptions).
  destruct (firstPositional runOptions) as [|b|n|s|elems];
    simpl in *; try reflexivity; try discriminate.
  by destruct (Hnot s).
Qed.

Lemma parse_token (runOptions : Options) (d : option string) (tok : string) :
  firstPositional runOptions = VStr tok ->
  tok <> "" ->
  outcome (parseRunOptsFrom E runOptions d)
  = if negb (truthy (resolvedProject runOptions tok d))
       || negb (truthy (segment tok 1))
    then Throw InvalidInvocation
    else Ok (requestOf runOptions tok d).
Proof.
  intros Htok Hne. unfold parseRunOptsFrom.
  rewrite guard_firstPositional.
  fold (firstPositional runOptions). rewrite Htok.
  assert (truthy (VStr tok) = true) as ->.
  { simpl. destruct (String.eqb_spec tok ""); [congruence|done]. }
  unfold requestOf, resolvedProject, resolvedConfiguration, segment.
  simpl splitColon. simpl negb. cbn [bind lift ret throw].
  set (parts := map VStr (split colon tok)).
  assert (truthyName d = true -> truthy (VStr (default "" d)) = true) as Hdef.
  { by destruct d. }
  destruct (truthy (pick parts 0)) eqn:Hp0;
    destruct (truthyName d) eqn:Hd;
    destruct (truthy (get runOptions "project")) eqn:Hfp;
    destruct (truthy (get runOptions "prod")) eqn:Hprod;
    destruct (truthy (get runOptions "configuration")) eqn:Hcfg;
    destruct (truthy (pick parts 1)) eqn:Hp1;
    simpl; unfold outcome, throwInvalidInvocation; simpl;
    rewrite ?Hp0, ?Hfp, ?Hp1; simpl; try reflexivity;
    specialize (Hdef eq_refl); simpl in Hdef; by rewrite Hdef.
Qed.

End ParseFacts.

Section ParseClaims.

Context {Schema : Type}.
Variable E : Collaborators Schema.

(** A parse that returns had a non-empty string token in first position,
    and returns the request the specification describes. *)
Lemma parse_ok_inv (runOptions : Options) (d : option string)
    (r : RunOptions) :
  outcome (parseRunOptsFrom E runOptions d) = Ok r ->
  exists tok,
    firstPositional runOptions = VStr tok /\ tok <> ""
    /\ r = requestOf runOptions tok d
    /\ truthy (resolvedProject runOptions tok d) = true
    /\ truthy (segment tok 1) = true.
Proof.
  intros Hok.
  destruct (truthy (firstPositional runOptions)) eqn:Htruthy.
  - destruct (firstPositional runOptions) as [|b|n|s|elems] eqn:Hfirst.
    1, 2, 3, 5:
      rewrite parse_not_a_string in Hok;
        [discriminate | by rewrite Hfirst | rewrite Hfirst; discriminate].
    assert (s <> "") as Hne.
    { intros ->. discriminate. }
    rewrite (parse_token E _ _ s Hfirst Hne) in Hok.
    exists s.
    destruct (truthy (resolvedProject runOptions s d));
      destruct (truthy (segment s 1)); simpl in Hok; try discriminate.
    by inversion Hok.
  - rewrite parse_no_token in Hok; [discriminate|done].
Qed.

Lemma get_delete_ne (runOptions : Options) (k k' : string) :
  k <> k' -> get (delete k runOptions) k' = get runOptions k'.
Proof. intros Hne. unfold get. by rewrite lookup_delete_ne. Qed.

Lemma get_delete_eq (runOptions : Options) (k : string) :
  get (delete k runOptions) k = VUndefined.
Proof. unfold get. by rewrite lookup_delete_eq. Qed.

Lemma stripRecognized_lookup (runOptions : Options) (k : string) :
  stripRecognized runOptions !! k
  = if bool_decide (k ∈ recognizedKeys) then None else runOptions !! k.
Proof.
  unfold stripRecognized, recognizedKeys.
  case_bool_decide as Hk.
  - repeat (apply elem_of_cons in Hk as [->|Hk];
            [by repeat (rewrite lookup_delete_eq
                        || (rewrite lookup_delete_ne by done))|]).
    by apply elem_of_nil in Hk.
  - repeat (apply not_elem_of_cons in Hk as [? Hk]).
    by repeat (rewrite lookup_delete_ne by done).
Qed.

(** Deleting a recognized key first does not change the stripped bag. *)
Lemma stripRecognized_delete (runOptions : Options) (k : string) :
  k ∈ recognizedKeys ->
  stripRecognized (delete k runOptions) = stripRecognized runOptions.
Proof.
  intros Hk. apply map_eq. intros j.
  rewrite !stripRecognized_lookup.
  case_bool_decide as Hj; [done|].
  apply lookup_delete_ne. intros ->. contradiction.
Qed.

(** A recognized flag whose value is falsy reads like an absent one. *)
Lemma parse_delete_falsy (runOptions : Options) (d : option string)
    (k : string) :
  k = "configuration" \/ k = "project" ->
  truthy (get runOptions k) = false ->
  parseRunOptsFrom E runOptions d
  = parseRunOptsFrom E (delete k runOptions) d.
Proof.
  intros Hk Hfalsy. unfold parseRunOptsFrom.
  rewrite stripRecognized_delete
    by (destruct Hk as [-> | ->]; unfold recognizedKeys; set_solver).
  destruct Hk as [-> | ->].
  - rewrite !get_delete_eq, Hfalsy.
    by rewrite !(get_delete_ne _ "configuration") by done.
  - rewrite !get_delete_eq, Hfalsy.
    by rewrite !(get_delete_ne _ "project") by done.
Qed.

End ParseClaims.

Section ParseTheorems.

Context {Schema : Type}.
Variable E : Collaborators Schema.

Lemma segment_absent (tok : string) (i : nat) :
  (length (split colon tok) <= i)%nat -> segment tok i = VUndefined.
Proof.
  intros Hlen. unfold segment, pick.
  apply nth_overflow. by rewrite length_map.
Qed.

Lemma segment_present (tok part : string) (i : nat) :
  split colon tok !! i = Some part -> segment tok i = VStr part.
Proof.
  intros Hpart. unfold segment, pick.
  apply nth_lookup_Some with (d := VUndefined).
  by rewrite list_lookup_fmap, Hpart.
Qed.

(** C7: when the bag holds a non-empty string token in first position,
    the parts of that token between the colons (which join back to the
    token and hold no colon themselves) are bound in order to project,
    target and configuration; a position the token does not supply is
    undefined.  The request carries the second part as its target, the
    first as its project unless the project flag is given, and the third
    as its configuration unless a configuration flag or [prod] is given;
    and the parse does return when the first two parts are non-empty. *)
Theorem parse_splits_positional_token (cwd : string) (args : list string)
    (d : option string) (tok : string) :
  firstPositional (parsedOptions E args) = VStr tok ->
  tok <> "" ->
  let bag := parsedOptions E args in
  let parts := split colon tok in
  join ":" parts = tok
  /\ Forall (fun part => freeOf colon part = true) parts
  /\ (forall i part, parts !! i = Some part -> segment tok i = VStr part)
  /\ (forall i, (length parts <= i)%nat -> segment tok i = VUndefined)
  /\ (forall r, outcome (parseRunOpts E cwd args d) = Ok r ->
        target r = segment tok 1
        /\ (truthy (get bag "project") = false ->
            truthy (segment tok 0) = true -> project r = segment tok 0)
        /\ (truthy (get bag "configuration") = false ->
            truthy (get bag "prod") = false ->
            configuration r = segment tok 2))
  /\ (truthy (segment tok 0) = true -> truthy (segment tok 1) = true ->
      exists r, outcome (parseRunOpts E cwd args d) = Ok r).
Proof.
  intros Htok Hne bag parts.
  split; [apply (join_split colon)|].
  split; [apply split_freeOf|].
  split; [intros i part; apply segment_present|].
  split; [intros i; apply segment_absent|].
  unfold parseRunOpts. fold bag in Htok |- *.
  rewrite (parse_token E bag d tok Htok Hne).
  split.
  - intros r Hr.
    destruct (negb (truthy (resolvedProject bag tok d))
              || negb (truthy (segment tok 1))); [discriminate|].
    inversion Hr; subst r; clear Hr. simpl.
    split; [done|]. split.
    + intros Hflag Hseg. unfold resolvedProject. by rewrite Hflag, Hseg.
    + intros Hcfg Hprod. unfold resolvedConfiguration. by rewrite Hprod, Hcfg.
  - intros Hseg0 Hseg1. rewrite Hseg1.
    assert (truthy (resolvedProject bag tok d) = true) as ->; [|by eexists].
    unfold resolvedProject. rewrite Hseg0.
    by destruct (truthy (get bag "project")) eqn:Hflag.
Qed.

(** The two tokens of the specification's examples. *)
Example segments_proj_build :
  (segment "proj:build" 0, segment "proj:build" 1, segment "proj:build" 2)
  = (VStr "proj", VStr "build", VUndefined).
Proof. reflexivity. Qed.

Example segments_proj_build_prod :
  (segment "proj:build:prod" 0, segment "proj:build:prod" 1,
   segment "proj:build:prod" 2)
  = (VStr "proj", VStr "build", VStr "prod").
Proof. reflexivity. Qed.

(** C2: in a request the parse returns, [prod] forces the configuration
    to the string production whatever the configuration flag says; without
    [prod] a configuration flag replaces the configuration part of the
    positional token, and so does the alias [c] when the bag mirrors it
    onto [configuration], as the alias table asks of minimist; with
    neither, the positional part stands.  A project flag replaces the
    project, whether that came from the token or from the default project
    name; without it the token's project part stands, or the default when
    the token has none. *)
Theorem parse_flag_precedence (cwd : string) (args : list string)
    (d : option string) (r : RunOptions) :
  outcome (parseRunOpts E cwd args d) = Ok r ->
  let bag := parsedOptions E args in
  exists tok,
    firstPositional bag = VStr tok
    /\ (truthy (get bag "prod") = true ->
        configuration r = VStr "production")
    /\ (truthy (get bag "prod") = false ->
        truthy (get bag "configuration") = true ->
        configuration r = get bag "configuration")
    /\ (get bag "c" = get bag "configuration" ->
        truthy (get bag "prod") = false ->
        truthy (get bag "c") = true ->
        configuration r = get bag "c")
    /\ (truthy (get bag "prod") = false ->
        truthy (get bag "configuration") = false ->
        configuration r = segment tok 2)
    /\ (truthy (get bag "project") = true ->
        project r = get bag "project")
    /\ (truthy (get bag "project") = false ->
        truthy (segment tok 0) = true ->
        project r = segment tok 0)
    /\ (truthy (get bag "project") = false ->
        truthy (segment tok 0) = false ->
        exists name, d = Some name /\ project r = VStr name).
Proof.
  intros Hok bag. unfold parseRunOpts in Hok. fold bag in Hok.
  destruct (parse_ok_inv E bag d r Hok) as (tok & Htok & _ & -> & Hproj & _).
  exists tok. split; [done|]. simpl.
  unfold resolvedConfiguration, resolvedProject in *.
  repeat split.
  - by intros ->.
  - by intros -> ->.
  - intros <- -> Hc. by rewrite Hc.
  - by intros -> ->.
  - by intros ->.
  - by intros -> ->.
  - intros Hflag Hseg. rewrite Hflag, Hseg in Hproj |- *.
    destruct d as [name|]; simpl in *; [|by rewrite Hseg in Hproj].
    exists name. split; [done|].
    destruct (String.eqb name ""); simpl in *; [by rewrite Hseg in Hproj|done].
Qed.

(** For a bag whose first positional, if there is one, is a string
    token, the parse throws the invalid-invocation error exactly when
    there is no such token, or the project resolved from flag, token and
    default project name is empty, or the target part of the token is
    empty; in every other case it returns a request whose project and
    target are non-empty. *)
Theorem parse_invalid_invocation_iff (cwd : string) (args : list string)
    (d : option string) (tok : option string) :
  firstToken (parsedOptions E args) tok ->
  let bag := parsedOptions E args in
  (outcome (parseRunOpts E cwd args d) = Throw InvalidInvocation
   <-> tok = None
       \/ exists t, tok = Some t
            /\ (truthy (resolvedProject bag t d) = false
                \/ truthy (segment t 1) = false))
  /\ (outcome (parseRunOpts E cwd args d) <> Throw InvalidInvocation ->
      exists r, outcome (parseRunOpts E cwd args d) = Ok r
        /\ truthy (project r) = true /\ truthy (target r) = true).
Proof.
  intros Htok bag. unfold firstToken, parseRunOpts in *. fold bag in Htok |- *.
  destruct tok as [t|]; simpl in Htok.
  - destruct (String.eqb_spec t "") as [->|Hne].
    + rewrite parse_no_token by (by rewrite Htok).
      split; [|done]. split; [|done].
      intros _. right. exists "". split; [done|]. by right.
    + rewrite (parse_token E bag d t Htok Hne).
      destruct (truthy (resolvedProject bag t d)) eqn:Hp;
        destruct (truthy (segment t 1)) eqn:Ht; simpl.
      * split.
        -- split; [discriminate|].
           intros [?|(t' & [= <-] & [?|?])]; congruence.
        -- intros _. eexists. split; [done|]. simpl. by rewrite Hp, Ht.
      * split; [|done]. split; [|done]. intros _. right. exists t. auto.
      * split; [|done]. split; [|done]. intros _. right. exists t. auto.
      * split; [|done]. split; [|done]. intros _. right. exists t. auto.
  - rewrite parse_no_token by (by rewrite Htok).
    split; [|done]. split; auto.
Qed.

(** C4, where the code departs from the claim: a first positional that
    the option parser hands over as a number other than zero, as it does
    for an argument written in digits, is truthy and has no [split].  The
    parse then throws a type error before anything is logged: it neither
    throws the invalid-invocation error, although such a token names no
    target, nor returns a request. *)
Theorem parse_number_token_is_type_error (cwd : string)
    (args : list string) (d : option string) (n : Z) :
  n <> 0 ->
  firstPositional (parsedOptions E args) = VNum n ->
  parseRunOpts E cwd args d
  = ([], Throw (TypeError "runOptions._[0].split is not a function"))
  /\ outcome (parseRunOpts E cwd args d) <> Throw InvalidInvocation
  /\ forall r, outcome (parseRunOpts E cwd args d) <> Ok r.
Proof.
  intros Hn Hfirst.
  assert (parseRunOpts E cwd args d
          = ([], Throw (TypeError "runOptions._[0].split is not a function")))
    as Hparse.
  { unfold parseRunOpts. apply parse_not_a_string.
    - rewrite Hfirst. simpl. by destruct (Z.eqb_spec n 0).
    - intros s. by rewrite Hfirst. }
  rewrite Hparse. by repeat split.
Qed.

(** C8: when the parse returns, the keys [help], [_], [c],
    [configuration], [prod] and [project] are absent from the bag the
    request carries, and every other key reads there as it does in the
    parsed bag. *)
Theorem parse_strips_recognized_keys (cwd : string) (args : list string)
    (d : option string) (r : RunOptions) :
  outcome (parseRunOpts E cwd args d) = Ok r ->
  forall k,
    (k ∈ recognizedKeys -> runOptions r !! k = None)
    /\ (k ∉ recognizedKeys -> runOptions r !! k = parsedOptions E args !! k).
Proof.
  intros Hok k. unfold parseRunOpts in Hok.
  destruct (parse_ok_inv E _ d r Hok) as (tok & _ & _ & -> & _).
  simpl. rewrite stripRecognized_lookup.
  split; intros Hk; by case_bool_decide.
Qed.

(** C10: a [configuration] flag whose value is the empty string leaves
    the parse as it is for the bag without that flag, and so does a
    [project] flag whose value is the empty string: events, error or
    request, project and configuration included, are the same. *)
Theorem parse_empty_flag_is_absent (cwd : string) (args : list string)
    (d : option string) :
  let bag := parsedOptions E args in
  (get bag "configuration" = VStr "" ->
   parseRunOpts E cwd args d
   = parseRunOptsFrom E (delete "configuration" bag) d)
  /\ (get bag "project" = VStr "" ->
      parseRunOpts E cwd args d = parseRunOptsFrom E (delete "project" bag) d).
Proof.
  intros bag. unfold parseRunOpts. fold bag.
  split; intros Hempty; apply parse_delete_falsy; auto; by rewrite Hempty.
Qed.

End ParseTheorems.

Section ValidateTheorems.

Lemma prop_None {V : Type} (o : JsObject V) (k : string) :
  prop o k = None <-> k ∉ keys o.
Proof.
  induction o as [|[k' v] o IH]; simpl.
  - split; [intros _; apply not_elem_of_nil|done].
  - rewrite not_elem_of_cons.
    destruct (String.eqb_spec k' k) as [->|Hne].
    + split; [discriminate|]. by intros [? _].
    + rewrite IH. split; [|by intros [_ ?]]. intros ?. split; congruence.
Qed.

Lemma member_own {V : Type} (o : JsObject V) (k : string) (v : V) :
  member o k = Own v <-> prop o k = Some v.
Proof.
  unfold member. destruct (prop o k) as [v'|].
  - split; congruence.
  - by destruct (inherits k).
Qed.

Lemma member_inherited {V : Type} (o : JsObject V) (k : string) :
  member o k = Inherited <-> prop o k = None /\ inherits k = true.
Proof.
  unfold member. destruct (prop o k) as [v'|].
  - split; [discriminate|by intros [? _]].
  - destruct (inherits k); split; try done. by intros [_ ?].
Qed.

Lemma member_undefined {V : Type} (o : JsObject V) (k : string) :
  member o k = Undefined <-> prop o k = None /\ inherits k = false.
Proof.
  unfold member. destruct (prop o k) as [v'|].
  - split; [discriminate|by intros [? _]].
  - destruct (inherits k); split; try done. by intros [_ ?].
Qed.

(** C5, as the code has it: when the project exists and the target name
    is not a key of its target map, nor one of the names every object
    inherits, validation throws the target-not-found error, whose payload
    is the list of the project's target names in the order the target map
    enumerates them, and whose message ends with those names joined by a
    comma and a space. *)
Theorem validate_target_not_found (workspace : WorkspaceConfiguration)
    (opts : RunOptions) (proj : ProjectConfiguration) :
  prop (projects workspace) (toString (project opts)) = Some proj ->
  toString (target opts) ∉ keys (targets proj) ->
  inherits (toString (target opts)) = false ->
  validateTargetAndConfiguration workspace opts
  = Throw (TargetNotFound (target opts) (project opts) (keys (targets proj)))
  /\ forall bold,
       message bold
         (TargetNotFound (target opts) (project opts) (keys (targets proj)))
       = "Could not find target " +:+ dq +:+ toString (target opts) +:+ dq
           +:+ " in the " +:+ toString (project opts)
           +:+ " project. Valid targets are: "
           +:+ bold (join ", " (keys (targets proj))).
Proof.
  intros Hproj Hkey Hname. apply prop_None in Hkey.
  apply member_own in Hproj.
  assert (member (targets proj) (toString (target opts)) = Undefined) as Htgt.
  { by apply member_undefined. }
  unfold validateTargetAndConfiguration. by rewrite Hproj, Htgt.
Qed.

(** C5, as the claim has it, fails: for the project whose target map
    declares [test] before [build], the request for the missing target
    [lint] is refused with the names in that order, which is not sorted. *)
Lemma validate_target_names_not_sorted :
  prop (projects sampleWorkspace) "proj"
  = Some {| targets := [("test", sampleTest); ("build", sampleBuild)] |}
  /\ ("lint" ∉ ["test"; "build"])
  /\ validateTargetAndConfiguration sampleWorkspace
       (sampleRequest (VStr "lint") VUndefined)
     = Throw (TargetNotFound (VStr "lint") (VStr "proj") ["test"; "build"])
  /\ ~ Sorted strLe ["test"; "build"].
Proof.
  split; [reflexivity|]. split.
  { intros Hin.
    repeat (apply elem_of_cons in Hin as [Hin|Hin]; [discriminate|]).
    by apply elem_of_nil in Hin. }
  split; [reflexivity|]. intros Hsorted.
  apply Sorted_inv in Hsorted as [_ Hhd].
  apply HdRel_inv in Hhd. discriminate Hhd.
Qed.

(** Validation once project and target are found among the own keys: only
    the configuration is left to check. *)
Lemma validate_resolved (workspace : WorkspaceConfiguration)
    (opts : RunOptions) (proj : ProjectConfiguration)
    (tgt : TargetConfiguration) :
  prop (projects workspace) (toString (project opts)) = Some proj ->
  prop (targets proj) (toString (target opts)) = Some tgt ->
  validateTargetAndConfiguration workspace opts
  = if truthy (configuration opts) then
      match configurations tgt with
      | Some cfgs =>
          match member cfgs (toString (configuration opts)) with
          | Own entry =>
              if entryTruthy entry then Ok tt
              else Throw (ConfigurationNotFound (configuration opts)
                            (project opts) (target opts) (keys cfgs))
          | Inherited => Ok tt
          | Undefined =>
              Throw (ConfigurationNotFound (configuration opts)
                       (project opts) (target opts) (keys cfgs))
          end
      | None =>
          Throw (NoConfigurationsDefined (project opts) (target opts)
                   (configuration opts))
      end
    else Ok tt.
Proof.
  intros Hproj%member_own Htgt%member_own.
  unfold validateTargetAndConfiguration. by rewrite Hproj, Htgt.
Qed.

(** C6, where the code departs from the claim: the configuration check
    is a read by name followed by a truthiness test, not a test of the
    keys of the configurations map.  With project and target found and a
    configuration name that is set, a name the map does not hold is
    accepted when it is one every object inherits, and a name the map does
    hold is refused as not found when the map binds it to a falsy
    value. *)
Theorem validate_configuration_divergence
    (workspace : WorkspaceConfiguration) (opts : RunOptions)
    (proj : ProjectConfiguration) (tgt : TargetConfiguration)
    (cfgs : JsObject ConfigurationEntry) :
  prop (projects workspace) (toString (project opts)) = Some proj ->
  prop (targets proj) (toString (target opts)) = Some tgt ->
  truthy (configuration opts) = true ->
  configurations tgt = Some cfgs ->
  (toString (configuration opts) ∉ keys cfgs ->
   inherits (toString (configuration opts)) = true ->
   validateTargetAndConfiguration workspace opts = Ok tt)
  /\ (forall entry,
        prop cfgs (toString (configuration opts)) = Some entry ->
        entryTruthy entry = false ->
        toString (configuration opts) ∈ keys cfgs
        /\ validateTargetAndConfiguration workspace opts
           = Throw (ConfigurationNotFound (configuration opts) (project opts)
                      (target opts) (keys cfgs))).
Proof.
  intros Hproj Htgt Hc Hcfgs.
  rewrite (validate_resolved _ _ _ _ Hproj Htgt), Hc, Hcfgs.
  split.
  - intros Hkey%prop_None Hname.
    assert (member cfgs (toString (configuration opts)) = Inherited) as ->.
    { by apply member_inherited. }
    reflexivity.
  - intros entry Hentry Hfalsy. split.
    + destruct (decide (toString (configuration opts) ∈ keys cfgs))
        as [|Hout]; [done|].
      apply prop_None in Hout. congruence.
    + apply member_own in Hentry. by rewrite Hentry, Hfalsy.
Qed.

End ValidateTheorems.

Section MonadFacts.

Context {Schema : Type}.

Lemma bind_ok {A B : Type} (log : list (Event Schema)) (a : A)
    (k : A -> M Schema B) :
  bind (log, Ok a) k = ((log ++ events (k a))%list, outcome (k a)).
Proof. unfold bind, events, outcome. by destruct (k a). Qed.

Lemma bind_lift_ok {A B : Type} (a : A) (k : A -> M Schema B) :
  bind (lift (Ok a)) k = k a.
Proof. unfold lift. rewrite bind_ok. by destruct (k a). Qed.

Lemma bind_throw {A B : Type} (log : list (Event Schema)) (e : Error)
    (k : A -> M Schema B) :
  bind (log, Throw e) k = (log, Throw e).
Proof. reflexivity. Qed.

Lemma bind_emit {B : Type} (ev : Event Schema) (k : unit -> M Schema B) :
  bind (emit ev) k = (ev :: events (k tt), outcome (k tt)).
Proof. unfold emit. by rewrite bind_ok. Qed.

End MonadFacts.

Section DispatchTheorems.

Context {Schema : Type}.
Variable E : Collaborators Schema.

(** The loop takes the outcomes in the order the iterator yields them and
    ends with the last one bound, or with what was bound before when the
    iterator yields nothing. *)
Lemma forAwait_yielding (l : list Outcome) (r : option Outcome) :
  forAwait (Schema := Schema) (yielding l) r
  = (map Consume l, Ok (from_option Some r (last l))).
Proof.
  revert r. induction l as [|o l IH]; intros r; [reflexivity|].
  cbn [yielding forAwait]. rewrite bind_emit, IH, last_cons.
  unfold events, outcome. simpl. by destruct (last l).
Qed.

Lemma iteratorToProcessStatusCode_yielding (l : list Outcome) (o : Outcome) :
  iteratorToProcessStatusCode (Schema := Schema) (yielding (l ++ [o]))
  = (map Consume (l ++ [o]), Ok (statusOf o)).
Proof.
  unfold iteratorToProcessStatusCode.
  rewrite forAwait_yielding, bind_ok, last_snoc. simpl.
  unfold events, outcome, ret. simpl. by rewrite app_nil_r.
Qed.

Lemma iteratorToProcessStatusCode_empty :
  iteratorToProcessStatusCode (Schema := Schema) Done
  = ([], Throw (TypeError
                  "Cannot read properties of undefined (reading 'success')")).
Proof. reflexivity. Qed.

(** C1: a native executor that answers a promise settled with an outcome
    gives exit code 0 when the outcome succeeded and 1 when it did not.  An
    executor that answers a non-empty sequence of outcomes, natively or
    through the adapter, has every outcome taken in the order of arrival,
    and the exit code is 0 or 1 by the success flag of the last outcome
    alone. *)
Theorem dispatch_exit_code (root : string) (isVerbose : bool)
    (workspace : WorkspaceConfiguration) (opts : RunOptions)
    (tgt : TargetConfiguration) (nodeModule executorName : value)
    (impl : Options -> TargetContext -> Result ExecutorResult)
    (combined : Options) :
  let context := contextOf root workspace opts tgt in
  let request := adapterRequest opts combined in
  let code (o : Outcome) : Z := if success o then 0 else 1 in
  let dispatched :=
    dispatch E root isVerbose workspace opts tgt nodeModule executorName
      impl combined in
  (isNxExecutor E root nodeModule executorName = true ->
   (forall o, impl combined context = Ok (APromise (Ok o)) ->
      dispatched = ([InvokeImplementation combined context], Ok (code o)))
   /\ (forall l o,
         impl combined context = Ok (AnIterator (yielding (l ++ [o]))) ->
         dispatched
         = (InvokeImplementation combined context :: map Consume (l ++ [o]),
            Ok (code o))))
  /\ (isNxExecutor E root nodeModule executorName = false ->
      forall l o,
        scheduleTarget E root request isVerbose = Ok (yielding (l ++ [o])) ->
        dispatched
        = (ScheduleTarget root request isVerbose :: map Consume (l ++ [o]),
           Ok (code o))).
Proof.
  intros context request code dispatched.
  subst context request code dispatched. unfold dispatch.
  fold (contextOf root workspace opts tgt).
  fold (adapterRequest opts combined).
  split; intros ->.
  - split.
    + intros o ->. by rewrite bind_emit, bind_lift_ok, bind_lift_ok.
    + intros l o ->.
      by rewrite bind_emit, bind_lift_ok, iteratorToProcessStatusCode_yielding.
  - intros l o ->.
    by rewrite bind_emit, bind_lift_ok, iteratorToProcessStatusCode_yielding.
Qed.

End DispatchTheorems.

Section RunTheorems.

Context {Schema : Type}.
Variable E : Collaborators Schema.

(** The parse logs at most the line about the default project. *)
Lemma parse_events (runOptions : Options) (d : option string) :
  events (parseRunOptsFrom E runOptions d) = []
  \/ exists msg, events (parseRunOptsFrom E runOptions d) = [LogDebug msg].
Proof.
  destruct (truthy (firstPositional runOptions)) eqn:Htruthy;
    [|left; by rewrite parse_no_token].
  destruct (firstPositional runOptions) as [|b|n|s|elems] eqn:Hfirst.
  1, 2, 3, 5:
    left; rewrite parse_not_a_string;
      [done | by rewrite Hfirst | rewrite Hfirst; discriminate].
  unfold parseRunOptsFrom.
  rewrite guard_firstPositional.
  fold (firstPositional runOptions). rewrite Hfirst, Htruthy.
  simpl splitColon. simpl negb. cbn [bind lift ret throw].
  set (parts := map VStr (split colon s)).
  destruct (negb (truthy (pick parts 0)) && truthyName d);
    cbn [bind emit ret];
    match goal with
    | |- context [if ?c then throwInvalidInvocation else ret tt] =>
        destruct c
    end; simpl; eauto.
Qed.

Lemma parse_events_no_invocation (runOptions : Options) (d : option string)
    (ev : Event Schema) :
  ev ∈ events (parseRunOptsFrom E runOptions d) -> isInvocation ev = false.
Proof.
  destruct (parse_events runOptions d) as [->|[msg ->]].
  - by intros ?%elem_of_nil.
  - by intros ->%list_elem_of_singleton.
Qed.

(** [runBody] once every stage before the help test has returned. *)
Lemma runBody_stages (cwd root : string) (args : list string)
    (isVerbose : bool) (workspace : WorkspaceConfiguration)
    (log : list (Event Schema)) (opts : RunOptions)
    (tgt : TargetConfiguration) (desc : ExecutorDescriptor Schema)
    (combined : Options) :
  stagesSucceed E cwd root args workspace log opts tgt desc combined ->
  let parts := map VStr (split colon (executor tgt)) in
  let rest :=
    if truthy (help opts)
    then (printRunHelp opts (schema desc) ;;; ret 0)
    else dispatch E root isVerbose workspace opts tgt (pick parts 0)
           (pick parts 1) (implementation desc) combined in
  runBody E cwd root args isVerbose
  = ((log ++ events rest)%list, outcome rest).
Proof.
  intros (Hws & Hparse & Hvalid & Htgt & Hdesc & Hcomb) parts rest.
  subst rest parts. unfold runBody.
  rewrite Hws, bind_lift_ok, Hparse, bind_ok.
  rewrite Hvalid, bind_lift_ok, Htgt, bind_lift_ok. cbv zeta.
  by rewrite Hdesc, bind_lift_ok, Hcomb, bind_lift_ok.
Qed.

(** C3: when the arguments parse into a request whose help flag is set,
    no event of the run invokes an executor, natively or through the
    adapter, whatever the later stages do; and when validation, executor
    lookup and option combination return, the run prints the help of the
    executor's schema under the label of the request and ends with exit
    code 0, which is what [run] passes to [handleErrors]. *)
Theorem help_skips_executor (cwd root : string) (args : list string)
    (isVerbose : bool) (workspace : WorkspaceConfiguration)
    (log : list (Event Schema)) (opts : RunOptions) :
  readWorkspaceConfiguration E root = Ok workspace ->
  parseRunOpts E cwd args (calculateDefaultProjectName E root cwd workspace)
  = (log, Ok opts) ->
  truthy (help opts) = true ->
  (forall ev, ev ∈ events (runBody E cwd root args isVerbose) ->
              isInvocation ev = false)
  /\ (forall tgt desc combined,
        stagesSucceed E cwd root args workspace log opts tgt desc combined ->
        let rendered :=
          PrintHelp ("nx run " +:+ toString (project opts) +:+ ":"
                     +:+ toString (target opts)) (schema desc) in
        runBody E cwd root args isVerbose = ((log ++ [rendered])%list, Ok 0)
        /\ run E cwd root args isVerbose
           = handleErrors E isVerbose ((log ++ [rendered])%list, Ok 0)).
Proof.
  intros Hws Hparse Hhelp. split.
  - intros ev. unfold runBody.
    rewrite Hws, bind_lift_ok, Hparse, bind_ok.
    intros Hev. apply elem_of_app in Hev as [Hlog|Hrest].
    { apply (parse_events_no_invocation (parsedOptions E args)
               (calculateDefaultProjectName E root cwd workspace)).
      unfold parseRunOpts in Hparse. by rewrite Hparse. }
    revert Hrest.
    destruct (validateTargetAndConfiguration workspace opts) as [[]|?];
      [rewrite bind_lift_ok|by intros ?%elem_of_nil].
    destruct (targetOf workspace opts) as [tgt|?];
      [rewrite bind_lift_ok|by intros ?%elem_of_nil].
    cbv zeta.
    destruct (readExecutor E root _ _) as [desc|?];
      [rewrite bind_lift_ok|by intros ?%elem_of_nil].
    destruct (combineOptionsForExecutor E _ _ _ _ _ _) as [combined|?];
      [rewrite bind_lift_ok|by intros ?%elem_of_nil].
    rewrite Hhelp. unfold printRunHelp. rewrite bind_emit.
    simpl. by intros ->%list_elem_of_singleton.
  - intros tgt desc combined Hstages rendered.
    assert (runBody E cwd root args isVerbose
            = ((log ++ [rendered])%list, Ok 0)) as Hbody.
    { rewrite (runBody_stages _ _ _ _ _ _ _ _ _ _ Hstages), Hhelp.
      unfold printRunHelp. by rewrite bind_emit. }
    split; [done|]. unfold run. by rewrite Hbody.
Qed.

(** C9: an iterator that yields nothing makes
    [iteratorToProcessStatusCode] throw the type error of reading
    [success] on undefined; dispatch, natively or through the adapter,
    ends with that error and no exit code; and once the stages before it
    have returned for a request without help, [runBody] ends with that
    error too, so that [run] hands the thrown error to [handleErrors]. *)
Theorem empty_sequence_throws (root : string) (isVerbose : bool)
    (workspace : WorkspaceConfiguration) (opts : RunOptions)
    (tgt : TargetConfiguration) :
  let undefinedRead :=
    TypeError "Cannot read properties of undefined (reading 'success')" in
  iteratorToProcessStatusCode (Schema := Schema) Done
  = ([], Throw undefinedRead)
  /\ (forall nodeModule executorName impl combined,
        let dispatched :=
          dispatch E root isVerbose workspace opts tgt nodeModule
            executorName impl combined in
        (isNxExecutor E root nodeModule executorName = true ->
         impl combined (contextOf root workspace opts tgt)
         = Ok (AnIterator Done) ->
         outcome dispatched = Throw undefinedRead)
        /\ (isNxExecutor E root nodeModule executorName = false ->
            scheduleTarget E root (adapterRequest opts combined) isVerbose
            = Ok Done ->
            outcome dispatched = Throw undefinedRead))
  /\ (forall cwd args log desc combined,
        let parts := map VStr (split colon (executor tgt)) in
        stagesSucceed E cwd root args workspace log opts tgt desc combined ->
        truthy (help opts) = false ->
        outcome (dispatch E root isVerbose workspace opts tgt (pick parts 0)
                   (pick parts 1) (implementation desc) combined)
        = Throw undefinedRead ->
        outcome (runBody E cwd root args isVerbose) = Throw undefinedRead
        /\ exists log',
             run E cwd root args isVerbose
             = handleErrors E isVerbose (log', Throw undefinedRead)).
Proof.
  intros undefinedRead. split; [reflexivity|]. split.
  - intros nodeModule executorName impl combined dispatched.
    subst dispatched. unfold dispatch.
    fold (contextOf root workspace opts tgt).
    fold (adapterRequest opts combined).
    split; intros -> ->; by rewrite bind_emit, bind_lift_ok.
  - intros cwd args log desc combined parts Hstages Hhelp Hdispatch.
    pose proof (runBody_stages cwd root args isVerbose _ _ _ _ _ _ Hstages)
      as Hbody.
    cbv zeta in Hbody. rewrite Hhelp in Hbody. fold parts in Hbody.
    rewrite Hdispatch in Hbody. split; [by rewrite Hbody|].
    eexists. unfold run. by rewrite Hbody.
Qed.

End RunTheorems.

(** ** The theorems at sample inputs *)

Lemma dispatch_exit_code_witness :
  dispatch nativeStreaming "/ws" false sampleWorkspace (buildRequest false)
    sampleBuild (VStr "@nrwl/web") (VStr "build")
    (fun _ _ => Ok (AnIterator (yielding sampleSequence))) ∅
  = (InvokeImplementation ∅
       (contextOf "/ws" sampleWorkspace (buildRequest false) sampleBuild)
     :: map Consume sampleSequence,
     Ok 1).
Proof.
  exact (proj2
           (proj1
              (dispatch_exit_code nativeStreaming "/ws" false sampleWorkspace
                 (buildRequest false) sampleBuild (VStr "@nrwl/web")
                 (VStr "build")
                 (fun _ _ => Ok (AnIterator (yielding sampleSequence))) ∅)
              eq_refl)
           [succeeded; succeeded] failed eq_refl).
Defined.

Lemma parse_flag_precedence_witness :
  outcome (parseRunOpts nativePromise "/ws"
             ["proj:build"; "--prod"; "--configuration=staging"] None)
  = Ok {| project := VStr "proj";
          target := VStr "build";
          configuration := VStr "production";
          help := VBool false;
          runOptions := ∅ |}
  /\ configuration
       {| project := VStr "proj";
          target := VStr "build";
          configuration := VStr "production";
          help := VBool false;
          runOptions := ∅ |}
     = VStr "production".
Proof.
  assert (outcome (parseRunOpts nativePromise "/ws"
                     ["proj:build"; "--prod"; "--configuration=staging"] None)
          = Ok {| project := VStr "proj";
                  target := VStr "build";
                  configuration := VStr "production";
                  help := VBool false;
                  runOptions := ∅ |}) as Hok.
  { vm_compute. reflexivity. }
  split; [exact Hok|].
  destruct (parse_flag_precedence nativePromise _ _ _ _ Hok)
    as (tok & _ & Hprod & _).
  apply Hprod. vm_compute. reflexivity.
Defined.

Lemma help_skips_executor_witness :
  runBody nativePromise "/ws/apps/proj" "/ws" ["proj:build"; "--help"] false
  = ([PrintHelp "nx run proj:build" "options of build"], Ok 0).
Proof.
  assert (parseRunOpts nativePromise "/ws/apps/proj" ["proj:build"; "--help"]
            (calculateDefaultProjectName nativePromise "/ws" "/ws/apps/proj"
               sampleWorkspace)
          = ([], Ok (buildRequest true))) as Hparse.
  { vm_compute. reflexivity. }
  destruct (help_skips_executor nativePromise "/ws/apps/proj" "/ws"
              ["proj:build"; "--help"] false sampleWorkspace []
              (buildRequest true) eq_refl Hparse eq_refl) as [_ Hrendered].
  assert (stagesSucceed nativePromise "/ws/apps/proj" "/ws"
            ["proj:build"; "--help"] sampleWorkspace [] (buildRequest true)
            sampleBuild (buildDescriptor (Ok (APromise (Ok succeeded)))) ∅)
    as Hstages.
  { repeat split; reflexivity. }
  exact (proj1 (Hrendered _ _ _ Hstages)).
Defined.

Lemma parse_invalid_invocation_iff_witness :
  firstToken (parsedOptions nativePromise []) None
  /\ outcome (parseRunOpts nativePromise "/ws" [] (Some "proj"))
     = Throw InvalidInvocation.
Proof.
  assert (firstToken (parsedOptions nativePromise []) None) as Hnone.
  { vm_compute. reflexivity. }
  split; [exact Hnone|].
  apply (proj1 (parse_invalid_invocation_iff nativePromise "/ws" []
                  (Some "proj") None Hnone)).
  left. reflexivity.
Defined.

Lemma parse_number_token_is_type_error_witness :
  firstPositional (parsedOptions nativePromise ["123"]) = VNum 123
  /\ parseRunOpts nativePromise "/ws" ["123"] (Some "proj")
     = ([], Throw (TypeError "runOptions._[0].split is not a function")).
Proof.
  assert (firstPositional (parsedOptions nativePromise ["123"]) = VNum 123)
    as Hfirst.
  { vm_compute. reflexivity. }
  split; [exact Hfirst|].
  refine (proj1 (parse_number_token_is_type_error nativePromise "/ws" ["123"]
                   (Some "proj") 123 _ Hfirst)).
  discriminate.
Defined.

Lemma validate_target_not_found_witness :
  validateTargetAndConfiguration sampleWorkspace
    (sampleRequest (VStr "lint") VUndefined)
  = Throw (TargetNotFound (VStr "lint") (VStr "proj") ["test"; "build"]).
Proof.
  refine (proj1 (validate_target_not_found sampleWorkspace
                   (sampleRequest (VStr "lint") VUndefined)
                   {| targets := [("test", sampleTest);
                                  ("build", sampleBuild)] |}
                   eq_refl _ eq_refl)).
  apply prop_None. reflexivity.
Defined.

Lemma validate_configuration_divergence_witness :
  validateTargetAndConfiguration sampleWorkspace
    (sampleRequest (VStr "build") (VStr "constructor"))
  = Ok tt
  /\ validateTargetAndConfiguration looseWorkspace
       (sampleRequest (VStr "deploy") (VStr "dry"))
     = Throw (ConfigurationNotFound (VStr "dry") (VStr "proj") (VStr "deploy")
                ["dry"; "live"]).
Proof.
  split.
  - refine (proj1 (validate_configuration_divergence sampleWorkspace
                     (sampleRequest (VStr "build") (VStr "constructor"))
                     _ sampleBuild _ eq_refl eq_refl eq_refl eq_refl)
              _ eq_refl).
    apply prop_None. reflexivity.
  - exact (proj2 (proj2 (validate_configuration_divergence looseWorkspace
                           (sampleRequest (VStr "deploy") (VStr "dry"))
                           _ sampleDeploy _ eq_refl eq_refl eq_refl eq_refl)
                    (NotAnObject (VBool false)) eq_refl eq_refl)).
Defined.

Lemma parse_splits_positional_token_witness :
  firstPositional (parsedOptions nativePromise ["proj:build:prod"])
  = VStr "proj:build:prod"
  /\ exists r,
       outcome (parseRunOpts nativePromise "/ws" ["proj:build:prod"] None)
       = Ok r.
Proof.
  assert (firstPositional (parsedOptions nativePromise ["proj:build:prod"])
          = VStr "proj:build:prod") as Htok.
  { vm_compute. reflexivity. }
  split; [exact Htok|].
  refine (proj2 (proj2 (proj2 (proj2 (proj2
            (parse_splits_positional_token nativePromise "/ws"
               ["proj:build:prod"] None "proj:build:prod" Htok _)))))
            eq_refl eq_refl).
  discriminate.
Defined.

Lemma parse_strips_recognized_keys_witness :
  outcome (parseRunOpts nativePromise "/ws"
             ["proj:build:prod"; "--configuration="; "--port=4200"] None)
  = Ok {| project := VStr "proj";
          target := VStr "build";
          configuration := VStr "prod";
          help := VBool false;
          runOptions := {[ "port" := VNum 4200 ]} |}
  /\ ({[ "port" := VNum 4200 ]} : Options) !! "configuration" = None
  /\ ({[ "port" := VNum 4200 ]} : Options) !! "port"
     = parsedOptions nativePromise
         ["proj:build:prod"; "--configuration="; "--port=4200"] !! "port".
Proof.
  assert (outcome (parseRunOpts nativePromise "/ws"
                     ["proj:build:prod"; "--configuration="; "--port=4200"]
                     None)
          = Ok {| project := VStr "proj";
                  target := VStr "build";
                  configuration := VStr "prod";
                  help := VBool false;
                  runOptions := {[ "port" := VNum 4200 ]} |}) as Hok.
  { vm_compute. reflexivity. }
  split; [exact Hok|].
  split.
  - apply (proj1 (parse_strips_recognized_keys nativePromise _ _ _ _ Hok
                    "configuration")).
    unfold recognizedKeys. set_solver.
  - apply (proj2 (parse_strips_recognized_keys nativePromise _ _ _ _ Hok
                    "port")).
    unfold recognizedKeys. intros Hin.
    repeat (apply elem_of_cons in Hin as [Hin|Hin]; [discriminate|]).
    by apply elem_of_nil in Hin.
Defined.

Lemma empty_sequence_throws_witness :
  outcome (runBody nativeEmpty "/ws/apps/proj" "/ws" ["proj:build"] false)
  = Throw (TypeError "Cannot read properties of undefined (reading 'success')").
Proof.
  assert (stagesSucceed nativeEmpty "/ws/apps/proj" "/ws" ["proj:build"]
            sampleWorkspace [] (buildRequest false) sampleBuild
            (buildDescriptor (Ok (AnIterator Done))) ∅) as Hstages.
  { repeat split; reflexivity. }
  destruct (empty_sequence_throws nativeEmpty "/ws" false sampleWorkspace
              (buildRequest false) sampleBuild) as (_ & Hdispatch & Hrun).
  refine (proj1 (Hrun _ _ _ _ _ Hstages eq_refl _)).
  exact (proj1 (Hdispatch _ _ _ _) eq_refl eq_refl).
Defined.

Lemma parse_empty_flag_is_absent_witness :
  parseRunOpts nativePromise "/ws"
    ["proj:build:prod"; "--configuration="; "--port=4200"] None
  = parseRunOptsFrom nativePromise
      (delete "configuration"
         (parsedOptions nativePromise
            ["proj:build:prod"; "--configuration="; "--port=4200"])) None
  /\ parseRunOpts nativePromise "/ws" [":build"; "--project="] (Some "proj")
     = parseRunOptsFrom nativePromise
         (delete "project"
            (parsedOptions nativePromise [":build"; "--project="]))
         (Some "proj").
Proof.
  split.
  - apply (proj1 (parse_empty_flag_is_absent nativePromise "/ws"
                    ["proj:build:prod"; "--configuration="; "--port=4200"]
                    None)).
    vm_compute. reflexivity.
  - apply (proj2 (parse_empty_flag_is_absent nativePromise "/ws"
                    [":build"; "--project="] (Some "proj"))).
    vm_compute. reflexivity.
Defined.

(** ** The examples of the specification, and the edges of the claims *)

Example parse_proj_build :
  parseRunOpts nativePromise "/ws" ["proj:build"] None
  = ([], Ok (buildRequest false)).
Proof. vm_compute. reflexivity. Qed.

Example parse_project_flag :
  outcome (parseRunOpts nativePromise "/ws"
             ["proj:build"; "--project=other"] None)
  = Ok {| project := VStr "other";
          target := VStr "build";
          configuration := VUndefined;
          help := VBool false;
          runOptions := ∅ |}.
Proof. vm_compute. reflexivity. Qed.

(** The default project name fills a missing project part, with its log
    line. *)
Example parse_default_project :
  parseRunOptsFrom nativePromise {[ "_" := VArr [VStr ":build"] ]}
    (Some "proj")
  = ([LogDebug "No project name specified. Using default project : proj"],
     Ok {| project := VStr "proj";
           target := VStr "build";
           configuration := VUndefined;
           help := VUndefined;
           runOptions := ∅ |}).
Proof. vm_compute. reflexivity. Qed.

(** A first positional that is a number, not a string, ends the parse
    with a type error, neither the invalid-invocation error nor a
    request. *)
Example parse_numeric_positional :
  parseRunOptsFrom nativePromise {[ "_" := VArr [VNum 123] ]} None
  = ([], Throw (TypeError "runOptions._[0].split is not a function")).
Proof. vm_compute. reflexivity. Qed.

(** An empty configuration name is not set: the target without
    configurations accepts it. *)
Example validate_empty_configuration_name :
  validateTargetAndConfiguration sampleWorkspace
    (sampleRequest (VStr "test") (VStr ""))
  = Ok tt.
Proof. reflexivity. Qed.

Example validate_project_not_found :
  validateTargetAndConfiguration sampleWorkspace
    {| project := VStr "other";
       target := VStr "build";
       configuration := VUndefined;
       help := VBool false;
       runOptions := ∅ |}
  = Throw (ProjectNotFound (VStr "other")).
Proof. reflexivity. Qed.

Example message_target_not_found :
  message id (TargetNotFound (VStr "lint") (VStr "proj") ["test"; "build"])
  = "Could not find target " +:+ dq +:+ "lint" +:+ dq
      +:+ " in the proj project. Valid targets are: test, build".
Proof. reflexivity. Qed.

(** The sequence of two successes and a failure, natively and through the
    adapter, and the single promise. *)
Example run_native_sequence :
  outcome (runBody nativeStreaming "/ws/apps/proj" "/ws" ["proj:build"] false)
  = Ok 1.
Proof. vm_compute. reflexivity. Qed.

Example run_adapter_sequence :
  outcome (runBody adapted "/ws/apps/proj" "/ws" ["proj:build"] false) = Ok 1.
Proof. vm_compute. reflexivity. Qed.

Example run_native_promise :
  outcome (runBody nativePromise "/ws/apps/proj" "/ws" ["proj:build"] false)
  = Ok 0.
Proof. vm_compute. reflexivity. Qed.

(** ** Further properties of validation *)

Section ValidateMore.

(** X1: validation accepts a request exactly when its project is a key of
    the workspace and one of two holds.  Either its target is a key of
    that project, and its configuration name is not set, or is bound to a
    truthy value by the configurations map the target declares, or is
    missing from that map but a name every object inherits.  Or its target
    is no key of the project but a name every object inherits, and no
    configuration name is set. *)
Theorem validate_ok_iff (workspace : WorkspaceConfiguration)
    (opts : RunOptions) :
  validateTargetAndConfiguration workspace opts = Ok tt
  <-> exists proj,
        prop (projects workspace) (toString (project opts)) = Some proj
        /\ ((exists tgt,
               prop (targets proj) (toString (target opts)) = Some tgt
               /\ (truthy (configuration opts) = false
                   \/ exists cfgs,
                        configurations tgt = Some cfgs
                        /\ ((exists entry,
                               prop cfgs (toString (configuration opts))
                               = Some entry
                               /\ entryTruthy entry = true)
                            \/ ((toString (configuration opts) ∉ keys cfgs)
                                /\ inherits (toString (configuration opts))
                                   = true))))
            \/ ((toString (target opts) ∉ keys (targets proj))
                /\ inherits (toString (target opts)) = true
                /\ truthy (configuration opts) = false)).
Proof.
  unfold validateTargetAndConfiguration. split.
  - intros Hok.
    destruct (member (projects workspace) (toString (project opts)))
      as [proj| |] eqn:Hproj; [|discriminate..].
    apply member_own in Hproj. exists proj. split; [done|].
    destruct (member (targets proj) (toString (target opts)))
      as [tgt| |] eqn:Htgt; [| |discriminate].
    + apply member_own in Htgt. left. exists tgt. split; [done|].
      destruct (truthy (configuration opts)); [|by left].
      destruct (configurations tgt) as [cfgs|]; [|discriminate].
      right. exists cfgs. split; [done|].
      destruct (member cfgs (toString (configuration opts)))
        as [entry| |] eqn:Hentry; [| |discriminate].
      * apply member_own in Hentry. left. exists entry. split; [done|].
        by destruct (entryTruthy entry).
      * apply member_inherited in Hentry as [Hnone%prop_None Hname].
        by right.
    + apply member_inherited in Htgt as [Hnone%prop_None Hname].
      right. split; [done|]. split; [done|].
      by destruct (truthy (configuration opts)).
  - intros (proj & Hproj%member_own & Hrest). rewrite Hproj.
    destruct Hrest as [(tgt & Htgt%member_own & Hcfg)|(Hkey & Hname & Hc)].
    + rewrite Htgt.
      destruct (truthy (configuration opts)); [|done].
      destruct Hcfg as [?|(cfgs & -> & Hentry)]; [done|].
      destruct Hentry as [(entry & Hentry%member_own & Htruthy)
                         |[Hkey%prop_None Hname]].
      * by rewrite Hentry, Htruthy.
      * assert (member cfgs (toString (configuration opts)) = Inherited)
          as ->; [by apply member_inherited|done].
    + apply prop_None in Hkey.
      assert (member (targets proj) (toString (target opts)) = Inherited)
        as ->; [by apply member_inherited|]. by rewrite Hc.
Qed.

(** X2: every error validation throws is one of five, each arising from
    its own violation only, in the order project, target, configuration.
    The project is no key of the workspace: project not found, or, when
    its name is one every object inherits, a type error from reading the
    target on its undefined targets.  The project is a key and the target
    is neither a key nor an inherited name: target not found, with the
    keys of the target map.  Project found and the configuration name set:
    no configurations defined, when the target declares no map or is an
    inherited name; configuration not found, with the keys of the map,
    when the map binds the name to a falsy value, or lacks it under a name
    no object inherits.  The errors carry the names of the request
    itself. *)
Theorem validate_error_cases (workspace : WorkspaceConfiguration)
    (opts : RunOptions) (e : Error) :
  validateTargetAndConfiguration workspace opts = Throw e ->
  let p := project opts in
  let t := target opts in
  let c := configuration opts in
  ((toString p ∉ keys (projects workspace))
   /\ ((inherits (toString p) = false /\ e = ProjectNotFound p)
       \/ (inherits (toString p) = true /\ exists msg, e = TypeError msg)))
  \/ exists proj,
       prop (projects workspace) (toString p) = Some proj
       /\ (((toString t ∉ keys (targets proj))
            /\ inherits (toString t) = false
            /\ e = TargetNotFound t p (keys (targets proj)))
           \/ (truthy c = true
               /\ e = NoConfigurationsDefined p t c
               /\ ((exists tgt,
                      prop (targets proj) (toString t) = Some tgt
                      /\ configurations tgt = None)
                   \/ ((toString t ∉ keys (targets proj))
                       /\ inherits (toString t) = true)))
           \/ exists tgt cfgs,
                prop (targets proj) (toString t) = Some tgt
                /\ truthy c = true
                /\ configurations tgt = Some cfgs
                /\ e = ConfigurationNotFound c p t (keys cfgs)
                /\ (((toString c ∉ keys cfgs)
                     /\ inherits (toString c) = false)
                    \/ exists entry,
                         prop cfgs (toString c) = Some entry
                         /\ entryTruthy entry = false)).
Proof.
  intros Hthrow p t c. subst p t c.
  unfold validateTargetAndConfiguration in Hthrow.
  destruct (member (projects workspace) (toString (project opts)))
    as [proj| |] eqn:Hproj.
  2: { apply member_inherited in Hproj as [Hnone%prop_None Hname].
       left. split; [done|]. right. split; [done|].
       inversion Hthrow. by eexists. }
  2: { apply member_undefined in Hproj as [Hnone%prop_None Hname].
       left. split; [done|]. left. by inversion Hthrow. }
  apply member_own in Hproj. right. exists proj. split; [done|].
  destruct (member (targets proj) (toString (target opts)))
    as [tgt| |] eqn:Htgt.
  - apply member_own in Htgt.
    destruct (truthy (configuration opts)); [|discriminate].
    destruct (configurations tgt) as [cfgs|] eqn:Hcfgs.
    + right. right. exists tgt, cfgs.
      split; [done|]. split; [done|]. split; [done|].
      destruct (member cfgs (toString (configuration opts)))
        as [entry| |] eqn:Hentry.
      * apply member_own in Hentry.
        destruct (entryTruthy entry) eqn:Htruthy; [discriminate|].
        split; [by inversion Hthrow|]. right. by exists entry.
      * discriminate.
      * apply member_undefined in Hentry as [Hnone%prop_None Hname].
        split; [by inversion Hthrow|]. by left.
    + right. left. split; [done|]. split; [by inversion Hthrow|].
      left. by exists tgt.
  - apply member_inherited in Htgt as [Hnone%prop_None Hname].
    destruct (truthy (configuration opts)); [|discriminate].
    right. left. split; [done|]. split; [by inversion Hthrow|]. by right.
  - apply member_undefined in Htgt as [Hnone%prop_None Hname].
    left. split; [done|]. split; [done|]. by inversion Hthrow.
Qed.

(** X3: the lookup [workspace.projects[p].targets[t]] that [run] makes after
    validation, with the read of the executor that follows it, finds a
    target exactly when project and target are keys of their maps.  After
    a validation that returned it finds the validated target, with one
    exception: a target name that is no key of the project but a name
    every object inherits passes validation when no configuration is set,
    and the run then throws a type error on reading [split] of the
    executor it does not have. *)
Theorem lookup_after_validation (workspace : WorkspaceConfiguration)
    (opts : RunOptions) :
  let inheritedTarget proj :=
    prop (projects workspace) (toString (project opts)) = Some proj
    /\ (toString (target opts) ∉ keys (targets proj))
    /\ inherits (toString (target opts)) = true in
  let noSplit :=
    TypeError "Cannot read properties of undefined (reading 'split')" in
  (forall tgt,
     targetOf workspace opts = Ok tgt
     <-> exists proj,
           prop (projects workspace) (toString (project opts)) = Some proj
           /\ prop (targets proj) (toString (target opts)) = Some tgt)
  /\ (validateTargetAndConfiguration workspace opts = Ok tt ->
      (exists tgt, targetOf workspace opts = Ok tgt)
      \/ (exists proj, inheritedTarget proj)
         /\ targetOf workspace opts = Throw noSplit)
  /\ (forall proj, inheritedTarget proj ->
        truthy (configuration opts) = false ->
        validateTargetAndConfiguration workspace opts = Ok tt
        /\ targetOf workspace opts = Throw noSplit).
Proof.
  intros inheritedTarget noSplit. subst inheritedTarget noSplit. cbv beta.
  unfold targetOf, validateTargetAndConfiguration.
  split; [|split].
  - intros tgt. split.
    + destruct (member (projects workspace) (toString (project opts)))
        as [proj| |] eqn:Hproj; [|discriminate..].
      destruct (member (targets proj) (toString (target opts)))
        as [tgt'| |] eqn:Htgt; [|discriminate..].
      intros [= <-]. exists proj. by split; apply member_own.
    + intros (proj & Hproj%member_own & Htgt%member_own).
      by rewrite Hproj, Htgt.
  - destruct (member (projects workspace) (toString (project opts)))
      as [proj| |] eqn:Hproj; [|discriminate..].
    apply member_own in Hproj.
    destruct (member (targets proj) (toString (target opts)))
      as [tgt| |] eqn:Htgt; [| |discriminate].
    + intros _. left. by exists tgt.
    + apply member_inherited in Htgt as [Hnone%prop_None Hname].
      intros _. right. split; [by exists proj|done].
  - intros proj (Hproj%member_own & Hkey%prop_None & Hname) Hc.
    rewrite Hproj.
    assert (member (targets proj) (toString (target opts)) = Inherited)
      as ->; [by apply member_inherited|]. by rewrite Hc.
Qed.

End ValidateMore.

(** ** Further properties of the parse *)

Section SplitMore.

Variable sep : ascii.

Lemma split_free (s : string) :
  freeOf sep s = true -> split sep s = [s].
Proof.
  induction s as [|c s IH]; [done|]. simpl.
  intros [Hc Hs]%andb_prop. apply negb_true_iff in Hc.
  by rewrite Hc, IH.
Qed.

Lemma split_app_sep (p rest : string) :
  freeOf sep p = true ->
  split sep (p +:+ String sep rest) = p :: split sep rest.
Proof.
  induction p as [|c p IH]; simpl.
  - intros _. by rewrite Ascii.eqb_refl.
  - intros [Hc Hp]%andb_prop. apply negb_true_iff in Hc.
    by rewrite Hc, IH.
Qed.

End SplitMore.

Section ParseMore.

Context {Schema : Type}.
Variable E : Collaborators Schema.

(** The log of a parse that has a string token. *)
Lemma parse_token_events (runOptions : Options) (d : option string)
    (tok : string) :
  firstPositional runOptions = VStr tok ->
  tok <> "" ->
  events (parseRunOptsFrom E runOptions d)
  = if negb (truthy (segment tok 0)) && truthyName d
    then [LogDebug ("No project name specified. Using default project : "
                    +:+ chalk_bold E (default "" d))]
    else [].
Proof.
  intros Htok Hne. unfold parseRunOptsFrom.
  rewrite guard_firstPositional.
  fold (firstPositional runOptions). rewrite Htok.
  assert (truthy (VStr tok) = true) as ->.
  { simpl. destruct (String.eqb_spec tok ""); [congruence|done]. }
  unfold segment. simpl splitColon. simpl negb. cbn [bind lift ret throw].
  set (parts := map VStr (split colon tok)).
  destruct (negb (truthy (pick parts 0)) && truthyName d);
    cbn [bind emit ret];
    match goal with
    | |- context [if ?c then throwInvalidInvocation else ret tt] =>
        destruct c
    end; reflexivity.
Qed.

(** X4: the parse logs one line, and only one: the notice that the default
    project is used, exactly when the first positional is a non-empty
    string token whose project part is empty and a default project name is
    given.  The notice does not look at the [project] flag, so it is
    logged also when that flag then replaces the default, and before the
    parse throws for a missing target. *)
Theorem parse_default_log (runOptions : Options) (d : option string) :
  events (parseRunOptsFrom E runOptions d)
  = match firstPositional runOptions with
    | VStr tok =>
        if negb (String.eqb tok "") && negb (truthy (segment tok 0))
           && truthyName d
        then [LogDebug ("No project name specified. Using default project : "
                        +:+ chalk_bold E (default "" d))]
        else []
    | _ => []
    end.
Proof.
  destruct (firstPositional runOptions) as [|b|n|tok|elems] eqn:Hfirst.
  1, 2, 3, 5:
    destruct (truthy (firstPositional runOptions)) eqn:Htruthy;
      [rewrite parse_not_a_string; [done|done|rewrite Hfirst; discriminate]
      |by rewrite parse_no_token].
  destruct (String.eqb_spec tok "") as [->|Hne].
  - rewrite parse_no_token; [done|by rewrite Hfirst].
  - by rewrite (parse_token_events _ _ tok Hfirst Hne).
Qed.

(** X5: the parse throws a type error exactly when the first positional
    is truthy and not a string (a number other than zero, [true], an
    array); it is then the error of calling [split] on it, thrown before
    anything is logged, and neither the invalid-invocation error nor a
    request. *)
Theorem parse_type_error_iff (runOptions : Options) (d : option string) :
  let notAString :=
    truthy (firstPositional runOptions) = true
    /\ forall s, firstPositional runOptions <> VStr s in
  ((exists msg,
      outcome (parseRunOptsFrom E runOptions d) = Throw (TypeError msg))
   <-> notAString)
  /\ (notAString ->
      parseRunOptsFrom E runOptions d
      = ([], Throw (TypeError "runOptions._[0].split is not a function"))).
Proof.
  intros notAString. subst notAString. split; [split|].
  - intros [msg Hthrow].
    destruct (truthy (firstPositional runOptions)) eqn:Htruthy.
    + split; [done|]. intros s Hs.
      assert (s <> "") as Hne. { intros ->. by rewrite Hs in Htruthy. }
      rewrite (parse_token E _ _ s Hs Hne) in Hthrow.
      by destruct (negb (truthy (resolvedProject runOptions s d))
                   || negb (truthy (segment s 1))).
    + by rewrite parse_no_token in Hthrow.
  - intros [Htruthy Hnot]. rewrite parse_not_a_string by done. by eexists.
  - intros [Htruthy Hnot]. by apply parse_not_a_string.
Qed.

(** X6: the [help] flag is inert in the parse: setting it to any value
    changes neither the log nor the error, and in a returned request it
    changes the [help] field alone; project, target, configuration and the
    residual bag are the same. *)
Theorem parse_help_is_inert (bag : Options) (d : option string)
    (h : value) :
  let parsed := parseRunOptsFrom E bag d in
  let parsed' := parseRunOptsFrom E (<["help" := h]> bag) d in
  events parsed' = events parsed
  /\ (forall e, outcome parsed = Throw e -> outcome parsed' = Throw e)
  /\ (forall r, outcome parsed = Ok r ->
        outcome parsed'
        = Ok {| project := project r;
                target := target r;
                configuration := configuration r;
                help := h;
                runOptions := runOptions r |}).
Proof.
  intros parsed parsed'. subst parsed parsed'.
  assert (forall k, k <> "help" ->
            get (<["help" := h]> bag) k = get bag k) as Hget.
  { intros k Hk. unfold get. by rewrite lookup_insert_ne. }
  assert (get (<["help" := h]> bag) "help" = h) as Hhelp.
  { unfold get. by rewrite lookup_insert_eq. }
  assert (stripRecognized (<["help" := h]> bag)
          = stripRecognized bag) as Hstrip.
  { unfold stripRecognized. by rewrite delete_insert_eq. }
  unfold parseRunOptsFrom. rewrite Hstrip, Hhelp, !Hget by done.
  destruct (negb (truthy (get bag "_"))
            || negb (truthy (index0 (get bag "_")))).
  { repeat split; intros; simpl in *; congruence. }
  destruct (splitColon (index0 (get bag "_"))) as [parts|e0].
  2: { repeat split; intros; simpl in *; congruence. }
  cbn [bind lift ret throw].
  destruct (negb (truthy (pick parts 0)) && truthyName d);
    cbn [bind emit ret];
    match goal with
    | |- context [if ?c then throwInvalidInvocation else ret tt] =>
        destruct c
    end; simpl; (repeat split; [intros; congruence|]);
    intros r [= <-]; reflexivity.
Qed.

(** X7: a default project name is not used when the positional token
    names a project: the parse, log included, is then the same as with no
    default at all. *)
Theorem parse_default_unused (runOptions : Options) (d : option string)
    (tok : string) :
  firstPositional runOptions = VStr tok ->
  truthy (segment tok 0) = true ->
  parseRunOptsFrom E runOptions d = parseRunOptsFrom E runOptions None.
Proof.
  intros Htok Hseg. unfold parseRunOptsFrom.
  rewrite guard_firstPositional.
  fold (firstPositional runOptions). rewrite Htok.
  destruct (truthy (VStr tok)); [|reflexivity].
  unfold segment in Hseg. simpl splitColon. simpl negb.
  cbn [bind lift ret throw]. by rewrite Hseg.
Qed.

End ParseMore.

Section ParseTokens.

Context {Schema : Type}.
Variable E : Collaborators Schema.

Lemma computation_eq {A : Type} (m m' : M Schema A) :
  events m = events m' -> outcome m = outcome m' -> m = m'.
Proof. destruct m, m'. simpl. by intros -> ->. Qed.

(** X8: of the positional arguments the parse reads the first three
    colon-separated parts of the first token and nothing else: two bags
    that agree on every key but [_], and whose first tokens agree on those
    three parts, parse alike.  Further parts of the token and further
    positional arguments are dropped without an error. *)
Theorem parse_ignores_extra_parts (bag bag' : Options) (d : option string)
    (tok tok' : string) :
  firstPositional bag = VStr tok ->
  firstPositional bag' = VStr tok' ->
  tok <> "" -> tok' <> "" ->
  (forall k, k <> "_" -> bag !! k = bag' !! k) ->
  (forall i, (i < 3)%nat -> segment tok i = segment tok' i) ->
  parseRunOptsFrom E bag d = parseRunOptsFrom E bag' d.
Proof.
  intros Htok Htok' Hne Hne' Hbag Hseg.
  assert (forall k, k <> "_" -> get bag k = get bag' k) as Hget.
  { intros k Hk. unfold get. by rewrite Hbag. }
  assert (stripRecognized bag = stripRecognized bag') as Hstrip.
  { apply map_eq. intros k. rewrite !stripRecognized_lookup.
    case_bool_decide as Hk; [done|]. apply Hbag. intros ->.
    apply Hk. unfold recognizedKeys. set_solver. }
  apply computation_eq.
  - rewrite (parse_token_events E bag d tok Htok Hne).
    rewrite (parse_token_events E bag' d tok' Htok' Hne').
    by rewrite (Hseg 0%nat) by lia.
  - rewrite (parse_token E bag d tok Htok Hne).
    rewrite (parse_token E bag' d tok' Htok' Hne').
    unfold requestOf, resolvedProject, resolvedConfiguration.
    rewrite Hstrip, (Hseg 0%nat), (Hseg 1%nat), (Hseg 2%nat) by lia.
    by rewrite !Hget by done.
Qed.

(** X9: a token written as project, colon, target from two non-empty
    parts that hold no colon parses back, when no flag overrides, to that
    project and that target with no configuration; with a third
    colon-free part appended after another colon, to that configuration as
    well.  The label under which [printRunHelp] prints the help of such a
    request is [nx run] followed by project, colon, target: the
    configuration is not part of it. *)
Theorem parse_formatted_token (bag : Options) (d : option string)
    (p t : string) :
  freeOf colon p = true -> freeOf colon t = true ->
  p <> "" -> t <> "" ->
  truthy (get bag "project") = false ->
  truthy (get bag "configuration") = false ->
  truthy (get bag "prod") = false ->
  let request (c : value) :=
    {| project := VStr p;
       target := VStr t;
       configuration := c;
       help := get bag "help";
       runOptions := stripRecognized bag |} in
  (firstPositional bag = VStr (p +:+ ":" +:+ t) ->
   outcome (parseRunOptsFrom E bag d) = Ok (request VUndefined))
  /\ (forall c, freeOf colon c = true ->
        firstPositional bag = VStr (p +:+ ":" +:+ t +:+ ":" +:+ c) ->
        outcome (parseRunOptsFrom E bag d) = Ok (request (VStr c)))
  /\ (forall c (schema : Schema),
        printRunHelp (request c) schema
        = ([PrintHelp ("nx run " +:+ p +:+ ":" +:+ t) schema], Ok tt)).
Proof.
  intros Hp Ht Hpne Htne Hflag Hcfg Hprod request. subst request.
  assert (truthy (VStr p) = true) as Hptrue.
  { simpl. by destruct (String.eqb_spec p ""). }
  assert (truthy (VStr t) = true) as Httrue.
  { simpl. by destruct (String.eqb_spec t ""). }
  assert (forall rest, p +:+ String colon rest <> "") as Hne.
  { intros rest. by destruct p. }
  split; [|split].
  - intros Htok.
    change (p +:+ ":" +:+ t) with (p +:+ String colon t) in Htok.
    rewrite (parse_token E bag d _ Htok (Hne t)).
    unfold requestOf, resolvedProject, resolvedConfiguration, segment.
    rewrite split_app_sep, split_free by done. simpl map. unfold pick.
    simpl nth. rewrite Hflag, Hcfg, Hprod, Hptrue, Httrue. cbv iota.
    by rewrite Hptrue.
  - intros c Hc Htok.
    change (p +:+ ":" +:+ t +:+ ":" +:+ c)
      with (p +:+ String colon (t +:+ String colon c)) in Htok.
    rewrite (parse_token E bag d _ Htok (Hne _)).
    unfold requestOf, resolvedProject, resolvedConfiguration, segment.
    rewrite !split_app_sep, split_free by done. simpl map. unfold pick.
    simpl nth. rewrite Hflag, Hcfg, Hprod, Hptrue, Httrue. cbv iota.
    by rewrite Hptrue.
  - reflexivity.
Qed.

End ParseTokens.

(** ** Further properties of dispatch and of the run *)

Section BindFacts.

Context {Schema : Type}.

Lemma bind_outcome_ok {A B : Type} (m : M Schema A) (k : A -> M Schema B)
    (b : B) :
  outcome (bind m k) = Ok b ->
  exists a, outcome m = Ok a /\ outcome (k a) = Ok b.
Proof.
  destruct m as [log [a|e]]; [|discriminate].
  rewrite bind_ok. intros Hb. by exists a.
Qed.

Lemma bind_events_elem {A B : Type} (m : M Schema A) (k : A -> M Schema B)
    (ev : Event Schema) :
  ev ∈ events (bind m k) ->
  ev ∈ events m \/ exists a, outcome m = Ok a /\ ev ∈ events (k a).
Proof.
  destruct m as [log [a|e]]; [|by left].
  rewrite bind_ok. intros [?|?]%elem_of_app; [by left|].
  right. by exists a.
Qed.

Lemma bind_throw_outcome {A B : Type} (m : M Schema A)
    (k : A -> M Schema B) (e : Error) :
  outcome m = Throw e -> bind m k = (events m, Throw e).
Proof. destruct m as [log [a|e']]; [discriminate|]. by intros [= ->]. Qed.

End BindFacts.

Section DispatchMore.

Context {Schema : Type}.
Variable E : Collaborators Schema.

(** The loop on any iterator: it takes what is yielded, in order, and ends
    with the rejection, or with the last outcome bound. *)
Lemma forAwait_cases (i : AsyncIterator) (r : option Outcome) :
  forAwait (Schema := Schema) i r
  = (map Consume (yielded i),
     match rejection i with
     | Some e => Throw e
     | None => Ok (from_option Some r (last (yielded i)))
     end).
Proof.
  revert r. induction i as [|e|o rest IH]; intros r; [done|done|].
  cbn [forAwait yielded rejection]. rewrite bind_emit, IH, last_cons.
  unfold events, outcome. simpl.
  destruct (rejection rest); [done|]. by destruct (last (yielded rest)).
Qed.

Lemma iterator_rejects (i : AsyncIterator) (e : Error) :
  rejection i = Some e ->
  iteratorToProcessStatusCode (Schema := Schema) i
  = (map Consume (yielded i), Throw e).
Proof.
  intros Hrej. unfold iteratorToProcessStatusCode.
  by rewrite forAwait_cases, Hrej.
Qed.

Lemma iterator_events (i : AsyncIterator) :
  events (iteratorToProcessStatusCode (Schema := Schema) i)
  = map Consume (yielded i).
Proof.
  unfold iteratorToProcessStatusCode. rewrite forAwait_cases.
  destruct (rejection i) as [e|]; [done|].
  rewrite bind_ok. simpl.
  destruct (last (yielded i)); simpl; by rewrite app_nil_r.
Qed.

(** X10: what [iteratorToProcessStatusCode] does with any iterator.  It
    takes every outcome the iterator yields, in order.  If the iterator
    ends by rejecting, that error is thrown as it is, whatever was yielded
    before; if it ends after at least one outcome, the exit code is 0 or 1
    by the success flag of the last; if it ends with none, the read of
    [success] on undefined throws. *)
Theorem iterator_status_cases (i : AsyncIterator) :
  iteratorToProcessStatusCode (Schema := Schema) i
  = (map Consume (yielded i),
     match rejection i with
     | Some e => Throw e
     | None =>
         match last (yielded i) with
         | Some o => Ok (if success o then 0 else 1)
         | None =>
             Throw (TypeError
                      "Cannot read properties of undefined (reading 'success')")
         end
     end).
Proof.
  unfold iteratorToProcessStatusCode. rewrite forAwait_cases.
  destruct (rejection i) as [e|]; [done|].
  rewrite bind_ok. simpl.
  destruct (last (yielded i)); simpl; by rewrite app_nil_r.
Qed.

Lemma iterator_status_zero_or_one (i : AsyncIterator) (z : Z) :
  outcome (iteratorToProcessStatusCode (Schema := Schema) i) = Ok z ->
  z = 0 \/ z = 1.
Proof.
  unfold iteratorToProcessStatusCode. rewrite forAwait_cases.
  destruct (rejection i) as [e|]; [discriminate|].
  rewrite bind_ok. simpl.
  destruct (last (yielded i)) as [o|]; simpl; [|discriminate].
  unfold statusOf. intros [= <-]. destruct (success o); auto.
Qed.

Lemma dispatch_zero_or_one (root : string) (isVerbose : bool)
    (workspace : WorkspaceConfiguration) (opts : RunOptions)
    (tgt : TargetConfiguration) (nodeModule executorName : value)
    (impl : Options -> TargetContext -> Result ExecutorResult)
    (combined : Options) (z : Z) :
  outcome (dispatch E root isVerbose workspace opts tgt nodeModule
             executorName impl combined) = Ok z ->
  z = 0 \/ z = 1.
Proof.
  unfold dispatch.
  destruct (isNxExecutor E root nodeModule executorName).
  - destruct (impl combined _) as [[[o|e]|i]|e].
    + rewrite bind_emit, !bind_lift_ok. unfold statusOf. intros [= <-].
      destruct (success o); auto.
    + rewrite bind_emit, bind_lift_ok. discriminate.
    + rewrite bind_emit, bind_lift_ok. intros Hz.
      by apply (iterator_status_zero_or_one i).
    + discriminate.
  - destruct (scheduleTarget E root _ isVerbose) as [i|e]; [|discriminate].
    rewrite bind_emit, bind_lift_ok. intros Hz.
    by apply (iterator_status_zero_or_one i).
Qed.

(** X11: whenever the body of [run] returns instead of throwing, the exit
    code is 0 or 1, for every workspace, argument list, executor and
    outcome sequence. *)
Theorem exit_code_zero_or_one (cwd root : string) (args : list string)
    (isVerbose : bool) (z : Z) :
  outcome (runBody E cwd root args isVerbose) = Ok z ->
  z = 0 \/ z = 1.
Proof.
  unfold runBody. intros Hz.
  apply bind_outcome_ok in Hz as (workspace & _ & Hz).
  apply bind_outcome_ok in Hz as (opts & _ & Hz).
  apply bind_outcome_ok in Hz as (_ & _ & Hz).
  apply bind_outcome_ok in Hz as (tgt & _ & Hz).
  cbv zeta in Hz.
  apply bind_outcome_ok in Hz as (desc & _ & Hz).
  apply bind_outcome_ok in Hz as (combined & _ & Hz).
  destruct (truthy (help opts)).
  - unfold printRunHelp in Hz. rewrite bind_emit in Hz.
    left. by inversion Hz.
  - by apply dispatch_zero_or_one in Hz.
Qed.

(** X12: dispatch passes every error on as it is.  A native
    implementation that throws when called, answers a promise that
    rejects, or answers an iterator that rejects, and an adapter that
    fails to schedule or whose sequence rejects, each end dispatch with
    that very error; the outcomes yielded before a rejection are taken and
    dropped, successes included. *)
Theorem dispatch_propagates_errors (root : string) (isVerbose : bool)
    (workspace : WorkspaceConfiguration) (opts : RunOptions)
    (tgt : TargetConfiguration) (nodeModule executorName : value)
    (impl : Options -> TargetContext -> Result ExecutorResult)
    (combined : Options) (e : Error) :
  let context := contextOf root workspace opts tgt in
  let request := adapterRequest opts combined in
  let dispatched :=
    dispatch E root isVerbose workspace opts tgt nodeModule executorName
      impl combined in
  (isNxExecutor E root nodeModule executorName = true ->
   (impl combined context = Throw e ->
    dispatched = ([InvokeImplementation combined context], Throw e))
   /\ (impl combined context = Ok (APromise (Throw e)) ->
       dispatched = ([InvokeImplementation combined context], Throw e))
   /\ (forall i, impl combined context = Ok (AnIterator i) ->
         rejection i = Some e ->
         dispatched
         = (InvokeImplementation combined context :: map Consume (yielded i),
            Throw e)))
  /\ (isNxExecutor E root nodeModule executorName = false ->
      (scheduleTarget E root request isVerbose = Throw e ->
       dispatched = ([ScheduleTarget root request isVerbose], Throw e))
      /\ (forall i, scheduleTarget E root request isVerbose = Ok i ->
            rejection i = Some e ->
            dispatched
            = (ScheduleTarget root request isVerbose
                 :: map Consume (yielded i),
               Throw e))).
Proof.
  intros context request dispatched. subst context request dispatched.
  unfold dispatch.
  fold (contextOf root workspace opts tgt).
  fold (adapterRequest opts combined).
  split; intros ->.
  - split; [|split].
    + by intros ->.
    + intros ->. by rewrite bind_emit, bind_lift_ok.
    + intros i -> Hrej.
      by rewrite bind_emit, bind_lift_ok, (iterator_rejects i e Hrej).
  - split.
    + by intros ->.
    + intros i -> Hrej.
      by rewrite bind_emit, bind_lift_ok, (iterator_rejects i e Hrej).
Qed.

Lemma filter_consume (l : list Outcome) :
  List.filter (isInvocation (Schema := Schema)) (map Consume l) = [].
Proof. by induction l. Qed.

(** X13: dispatch starts the executor once, by one protocol only: the
    first event is the call of the native implementation when the executor
    is native and the call of the adapter otherwise, and no later event is
    a call of either. *)
Theorem dispatch_invokes_once (root : string) (isVerbose : bool)
    (workspace : WorkspaceConfiguration) (opts : RunOptions)
    (tgt : TargetConfiguration) (nodeModule executorName : value)
    (impl : Options -> TargetContext -> Result ExecutorResult)
    (combined : Options) :
  let first :=
    if isNxExecutor E root nodeModule executorName
    then InvokeImplementation combined (contextOf root workspace opts tgt)
    else ScheduleTarget root (adapterRequest opts combined) isVerbose in
  let log :=
    events (dispatch E root isVerbose workspace opts tgt nodeModule
              executorName impl combined) in
  head log = Some first /\ List.filter isInvocation log = [first].
Proof.
  intros first log. subst first log. unfold dispatch.
  fold (contextOf root workspace opts tgt).
  fold (adapterRequest opts combined).
  destruct (isNxExecutor E root nodeModule executorName).
  - destruct (impl combined _) as [[[o|e]|i]|e];
      rewrite ?bind_emit, ?bind_lift_ok, ?iterator_events;
      split; try done.
    unfold events. simpl. by rewrite filter_consume.
  - destruct (scheduleTarget E root _ isVerbose) as [i|e];
      rewrite ?bind_emit, ?bind_lift_ok, ?iterator_events;
      split; try done.
    unfold events. simpl. by rewrite filter_consume.
Qed.

End DispatchMore.

Section RunMore.

Context {Schema : Type}.
Variable E : Collaborators Schema.

(** X14: an executor is only ever started for a request that went through
    every earlier stage: if the log of the run holds a call of a native
    implementation or of the adapter, then the workspace was read, the
    arguments parsed, the request validated, its target found, the
    executor resolved and the options combined, and help was not asked
    for. *)
Theorem invocation_requires_valid_request (cwd root : string)
    (args : list string) (isVerbose : bool) (ev : Event Schema) :
  ev ∈ events (runBody E cwd root args isVerbose) ->
  isInvocation ev = true ->
  exists workspace log opts tgt desc combined,
    stagesSucceed E cwd root args workspace log opts tgt desc combined
    /\ truthy (help opts) = false.
Proof.
  unfold runBody. intros Hev Hinv.
  apply bind_events_elem in Hev as [Hev|(workspace & Hws & Hev)].
  { by apply elem_of_nil in Hev. }
  apply bind_events_elem in Hev as [Hev|(opts & Hparse & Hev)].
  { apply (parse_events_no_invocation E) in Hev. congruence. }
  apply bind_events_elem in Hev as [Hev|([] & Hvalid & Hev)].
  { by apply elem_of_nil in Hev. }
  apply bind_events_elem in Hev as [Hev|(tgt & Htgt & Hev)].
  { by apply elem_of_nil in Hev. }
  cbv zeta in Hev.
  apply bind_events_elem in Hev as [Hev|(desc & Hdesc & Hev)].
  { by apply elem_of_nil in Hev. }
  apply bind_events_elem in Hev as [Hev|(combined & Hcomb & Hev)].
  { by apply elem_of_nil in Hev. }
  destruct (truthy (help opts)) eqn:Hhelp.
  { unfold printRunHelp in Hev. rewrite bind_emit in Hev.
    apply list_elem_of_singleton in Hev. by subst ev. }
  exists workspace,
    (events (parseRunOpts E cwd args
               (calculateDefaultProjectName E root cwd workspace))),
    opts, tgt, desc, combined.
  split; [|done]. unfold stagesSucceed.
  repeat split; try done.
  unfold outcome in Hparse.
  by destruct (parseRunOpts E cwd args _) as [log res]; simpl in *; subst.
Qed.

(** X15: a stage of the run that throws ends the run with its error, and
    with no effect beyond what was logged before: an error of reading the
    workspace, of the parse, or of validation is the error of the body, and
    the log is the log of the parse at most. *)
Theorem run_stage_errors_propagate (cwd root : string) (args : list string)
    (isVerbose : bool) (e : Error) :
  (readWorkspaceConfiguration E root = Throw e ->
   runBody E cwd root args isVerbose = ([], Throw e))
  /\ (forall workspace,
        readWorkspaceConfiguration E root = Ok workspace ->
        let parsed :=
          parseRunOpts E cwd args
            (calculateDefaultProjectName E root cwd workspace) in
        (outcome parsed = Throw e ->
         runBody E cwd root args isVerbose = (events parsed, Throw e))
        /\ (forall opts,
              outcome parsed = Ok opts ->
              validateTargetAndConfiguration workspace opts = Throw e ->
              runBody E cwd root args isVerbose = (events parsed, Throw e))).
Proof.
  split.
  - unfold runBody. by intros ->.
  - intros workspace Hws parsed. unfold runBody.
    rewrite Hws, bind_lift_ok. fold parsed.
    split.
    + intros Hthrow. by apply bind_throw_outcome.
    + intros opts Hok Hvalid.
      destruct parsed as [log res]. simpl in Hok. subst res.
      rewrite bind_ok, Hvalid. simpl. by rewrite app_nil_r.
Qed.

(** X16: [prod] asks for the production configuration of the target: when
    the arguments carry a truthy [prod] and parse into a request that
    validation accepts, the target of that request declares a
    configurations map with the key production. *)
Theorem prod_requires_production (cwd : string) (args : list string)
    (d : option string) (opts : RunOptions)
    (workspace : WorkspaceConfiguration) :
  outcome (parseRunOpts E cwd args d) = Ok opts ->
  truthy (get (parsedOptions E args) "prod") = true ->
  validateTargetAndConfiguration workspace opts = Ok tt ->
  configuration opts = VStr "production"
  /\ exists proj tgt cfgs,
       prop (projects workspace) (toString (project opts)) = Some proj
       /\ prop (targets proj) (toString (target opts)) = Some tgt
       /\ configurations tgt = Some cfgs
       /\ "production" ∈ keys cfgs.
Proof.
  intros Hok Hprod Hvalid. unfold parseRunOpts in Hok.
  destruct (parse_ok_inv E _ d opts Hok) as (tok & _ & _ & Hopts & _).
  assert (configuration opts = VStr "production") as Hcfg.
  { rewrite Hopts. simpl. unfold resolvedConfiguration. by rewrite Hprod. }
  split; [done|].
  unfold validateTargetAndConfiguration in Hvalid. rewrite Hcfg in Hvalid.
  destruct (member (projects workspace) (toString (project opts)))
    as [proj| |] eqn:Hproj; [|discriminate..].
  destruct (member (targets proj) (toString (target opts)))
    as [tgt| |] eqn:Htgt; [|discriminate..].
  simpl in Hvalid.
  destruct (configurations tgt) as [cfgs|] eqn:Hcfgs; [|discriminate].
  destruct (member cfgs "production") as [entry| |] eqn:Hentry;
    [| |discriminate].
  - apply member_own in Hproj, Htgt, Hentry.
    exists proj, tgt, cfgs. repeat split; try done.
    destruct (decide ("production" ∈ keys cfgs)) as [|Hout]; [done|].
    apply prop_None in Hout. congruence.
  - by apply member_inherited in Hentry as [_ ?].
Qed.

End RunMore.

(** ** The further properties at sample inputs *)

Lemma validate_error_cases_witness :
  validateTargetAndConfiguration sampleWorkspace
    {| project := VStr "other";
       target := VStr "build";
       configuration := VStr "x";
       help := VBool false;
       runOptions := ∅ |}
  = Throw (ProjectNotFound (VStr "other"))
  /\ ("other" ∉ keys (projects sampleWorkspace)).
Proof.
  split; [reflexivity|].
  destruct (validate_error_cases sampleWorkspace
              {| project := VStr "other";
                 target := VStr "build";
                 configuration := VStr "x";
                 help := VBool false;
                 runOptions := ∅ |}
              (ProjectNotFound (VStr "other")) eq_refl)
    as [[Hout _]|(proj & Hproj & _)].
  - exact Hout.
  - discriminate Hproj.
Defined.

Lemma parse_default_unused_witness :
  parseRunOptsFrom nativePromise
    (parsedOptions nativePromise ["proj:build"]) (Some "app")
  = parseRunOptsFrom nativePromise
      (parsedOptions nativePromise ["proj:build"]) None.
Proof.
  apply (parse_default_unused nativePromise _ (Some "app") "proj:build").
  - vm_compute. reflexivity.
  - reflexivity.
Defined.

Lemma parse_ignores_extra_parts_witness :
  parseRunOptsFrom nativePromise
    {[ "_" := VArr [VStr "proj:build:prod:extra"; VStr "more"] ]} None
  = parseRunOptsFrom nativePromise
      {[ "_" := VArr [VStr "proj:build:prod"] ]} None.
Proof.
  apply (parse_ignores_extra_parts nativePromise _ _ None
           "proj:build:prod:extra" "proj:build:prod").
  - vm_compute. reflexivity.
  - vm_compute. reflexivity.
  - discriminate.
  - discriminate.
  - intros k Hk. by rewrite !lookup_singleton_ne.
  - intros i Hi. destruct i as [|[|[|i]]]; [reflexivity..|lia].
Defined.

Lemma parse_formatted_token_witness :
  outcome (parseRunOptsFrom nativePromise
             {[ "_" := VArr [VStr "proj:build:prod"] ]} None)
  = Ok {| project := VStr "proj";
          target := VStr "build";
          configuration := VStr "prod";
          help := get {[ "_" := VArr [VStr "proj:build:prod"] ]} "help";
          runOptions :=
            stripRecognized {[ "_" := VArr [VStr "proj:build:prod"] ]} |}.
Proof.
  refine (proj1 (proj2
            (parse_formatted_token nativePromise
               {[ "_" := VArr [VStr "proj:build:prod"] ]} None "proj" "build"
               eq_refl eq_refl _ _ eq_refl eq_refl eq_refl))
            "prod" eq_refl _); try discriminate.
  vm_compute. reflexivity.
Defined.

Lemma exit_code_zero_or_one_witness :
  outcome (runBody nativeStreaming "/ws/apps/proj" "/ws" ["proj:build"] false)
  = Ok 1
  /\ (1 = 0 \/ 1 = 1).
Proof.
  assert (outcome (runBody nativeStreaming "/ws/apps/proj" "/ws"
                     ["proj:build"] false) = Ok 1) as Hrun.
  { vm_compute. reflexivity. }
  split; [exact Hrun|].
  exact (exit_code_zero_or_one nativeStreaming _ _ _ _ 1 Hrun).
Defined.

Lemma dispatch_propagates_errors_witness :
  dispatch nativeBroken "/ws" false sampleWorkspace (buildRequest false)
    sampleBuild (VStr "@nrwl/web") (VStr "build")
    (fun _ _ => Ok (AnIterator sampleBroken)) ∅
  = ([InvokeImplementation ∅
        (contextOf "/ws" sampleWorkspace (buildRequest false) sampleBuild);
      Consume failed; Consume succeeded],
     Throw (Opaque "build crashed")).
Proof.
  exact (proj2 (proj2
           (proj1
              (dispatch_propagates_errors nativeBroken "/ws" false
                 sampleWorkspace (buildRequest false) sampleBuild
                 (VStr "@nrwl/web") (VStr "build")
                 (fun _ _ => Ok (AnIterator sampleBroken)) ∅
                 (Opaque "build crashed"))
              eq_refl))
           sampleBroken eq_refl eq_refl).
Defined.

Lemma invocation_requires_valid_request_witness :
  exists workspace log opts tgt desc combined,
    stagesSucceed nativeStreaming "/ws/apps/proj" "/ws" ["proj:build"]
      workspace log opts tgt desc combined
    /\ truthy (help opts) = false.
Proof.
  apply (invocation_requires_valid_request nativeStreaming "/ws/apps/proj"
           "/ws" ["proj:build"] false
           (InvokeImplementation ∅
              (contextOf "/ws" sampleWorkspace (buildRequest false)
                 sampleBuild))).
  - assert (events (runBody nativeStreaming "/ws/apps/proj" "/ws"
                      ["proj:build"] false)
            = InvokeImplementation ∅
                (contextOf "/ws" sampleWorkspace (buildRequest false)
                   sampleBuild)
              :: map Consume sampleSequence) as ->.
    { vm_compute. reflexivity. }
    left.
  - reflexivity.
Defined.

Lemma prod_requires_production_witness :
  validateTargetAndConfiguration sampleWorkspace
    {| project := VStr "proj";
       target := VStr "build";
       configuration := VStr "production";
       help := VBool false;
       runOptions := ∅ |}
  = Ok tt
  /\ exists proj tgt cfgs,
       prop (projects sampleWorkspace) "proj" = Some proj
       /\ prop (targets proj) "build" = Some tgt
       /\ configurations tgt = Some cfgs
       /\ "production" ∈ keys cfgs.
Proof.
  split; [reflexivity|].
  refine (proj2
            (prod_requires_production nativePromise "/ws"
               ["proj:build"; "--prod"; "--configuration=staging"] None
               {| project := VStr "proj";
                  target := VStr "build";
                  configuration := VStr "production";
                  help := VBool false;
                  runOptions := ∅ |}
               sampleWorkspace _ _ eq_refl)); vm_compute; reflexivity.
Defined.

Lemma iterator_status_cases_witness :
  iteratorToProcessStatusCode (Schema := string) sampleBroken
  = ([Consume failed; Consume succeeded], Throw (Opaque "build crashed")).
Proof. exact (iterator_status_cases sampleBroken). Defined.

Lemma lookup_after_validation_witness :
  validateTargetAndConfiguration sampleWorkspace
    (sampleRequest (VStr "constructor") VUndefined)
  = Ok tt
  /\ targetOf sampleWorkspace (sampleRequest (VStr "constructor") VUndefined)
     = Throw (TypeError "Cannot read properties of undefined (reading 'split')").
Proof.
  refine (proj2 (proj2 (lookup_after_validation sampleWorkspace
                          (sampleRequest (VStr "constructor") VUndefined)))
            {| targets := [("test", sampleTest); ("build", sampleBuild)] |}
            (conj eq_refl (conj _ eq_refl)) eq_refl).
  apply prop_None. reflexivity.
Defined.

(** ** Names every object inherits *)

(** A project named like an inherited member is found truthy, and the read
    of the target on its undefined targets throws. *)
Example validate_inherited_project :
  validateTargetAndConfiguration sampleWorkspace
    {| project := VStr "constructor";
       target := VStr "build";
       configuration := VUndefined;
       help := VBool false;
       runOptions := ∅ |}
  = Throw (TypeError "Cannot read properties of undefined (reading 'build')").
Proof. reflexivity. Qed.

(** A target named like an inherited member passes validation when no
    configuration is set, and is refused for having no configurations when
    one is. *)
Example validate_inherited_target :
  validateTargetAndConfiguration sampleWorkspace
    (sampleRequest (VStr "constructor") VUndefined)
  = Ok tt
  /\ validateTargetAndConfiguration sampleWorkspace
       (sampleRequest (VStr "toString") (VStr "production"))
     = Throw (NoConfigurationsDefined (VStr "proj") (VStr "toString")
                (VStr "production")).
Proof. split; reflexivity. Qed.

(** The run of [proj:constructor] passes validation and throws at the read
    of the executor. *)
Example run_inherited_target :
  runBody nativePromise "/ws/apps/proj" "/ws" ["proj:constructor"] false
  = ([], Throw (TypeError
                  "Cannot read properties of undefined (reading 'split')")).
Proof. vm_compute. reflexivity. Qed.

(** The arguments [123] end the run in the type error of the parse. *)
Example run_number_token :
  runBody nativePromise "/ws/apps/proj" "/ws" ["123"] false
  = ([], Throw (TypeError "runOptions._[0].split is not a function")).
Proof. vm_compute. reflexivity. Qed.
